(** * Integer input dialog (input_dialog.c)

    A shallow embedding of [show_int_input_dialog]: the two-line terminal
    prompt that collects decimal digits in [input_buffer], deletes the last
    one on 'd', and leaves its loop on RETURN (confirm) or ESCAPE (cancel).

    The C function talks to three things outside itself: the terminal
    attributes ([tcgetattr] / [tcsetattr]), standard output ([printf]) and
    standard input ([getchar]).  They are modelled as a [world] that is
    passed along explicitly: the current attributes and the list of
    effects performed so far.  Standard input is the list of characters
    the loop consumes, one per iteration. *)

From Stdlib Require Import String Ascii ZArith List Bool Lia.
Import ListNotations.

Open Scope Z_scope.

(** ** Machine integers *)

(** [int32_t]: value of a mathematical integer after wrap-around into
    [-2^31, 2^31). *)
Definition INT32_MAX : Z := 2147483647.
Definition INT32_MIN : Z := -2147483648.

Definition wrap32 (z : Z) : Z := (z + 2147483648) mod 4294967296 - 2147483648.

(** [tcflag_t] is an unsigned 32-bit integer. *)
Definition to_uint32 (z : Z) : Z := z mod 4294967296.

(** ** Characters *)

Definition NUL : ascii := "000"%char.
Definition ESCAPE : ascii := "027"%char.    (* '\033' *)
Definition RETURN : ascii := "010"%char.    (* '\n'   *)
Definition BELL : ascii := "007"%char.      (* '\a'   *)

Definition code (c : ascii) : Z := Z.of_N (N_of_ascii c).

(** [isdigit] of <ctype.h> in the C locale. *)
Definition isdigit (c : ascii) : bool := (48 <=? code c) && (code c <=? 57).

(** [isspace] of <ctype.h> in the C locale: space, \t, \n, \v, \f, \r. *)
Definition isspace (c : ascii) : bool :=
  (code c =? 32) || ((9 <=? code c) && (code c <=? 13)).

Definition chars (s : string) : list ascii := list_ascii_of_string s.

(** ** Terminal attributes (<termios.h>) *)

Record termios : Type := mk_termios {
  c_iflag : Z;
  c_oflag : Z;
  c_cflag : Z;
  c_lflag : Z;
  c_cc : list Z
}.

(** Local-mode flag bits, with their values on Linux. *)
Definition ISIG : Z := 1.
Definition ICANON : Z := 2.
Definition ECHO : Z := 8.

(** [#define INPUT_BUFFER_MAX_LEN 11] *)
Definition INPUT_BUFFER_MAX_LEN : Z := 11.

(** [#define INPUT_PREFIX "? "] *)
Definition INPUT_PREFIX : list ascii := chars "? ".

(** [#define NEW_TERM_ATTRIBS_MASK (~ICANON & ~ECHO & ~ISIG)] *)
Definition NEW_TERM_ATTRIBS_MASK : Z :=
  Z.land (Z.land (Z.lnot ICANON) (Z.lnot ECHO)) (Z.lnot ISIG).

(** [new_tio = old_tio; new_tio.c_lflag &= NEW_TERM_ATTRIBS_MASK;] *)
Definition new_term_attribs (old_tio : termios) : termios :=
  mk_termios (c_iflag old_tio) (c_oflag old_tio) (c_cflag old_tio)
             (Z.land (c_lflag old_tio) (to_uint32 NEW_TERM_ATTRIBS_MASK))
             (c_cc old_tio).

(** ** The world *)

(** What the function does to its environment.  The three screen macros
    are kept as events of their own; every other [printf] is [EvPrint]
    with the characters it writes. *)
Inductive event : Type :=
| EvGotoXY (x y : Z)           (* goto_xy(x_, y_)  *)
| EvClearLine                  (* clear_line()     *)
| EvClearScreen                (* clear_screen()   *)
| EvPrint (s : list ascii)     (* printf of text   *)
| EvBell                       (* printf("\a")     *)
| EvTcSetAttr (t : termios).   (* tcsetattr(STDIN_FILENO, TCSANOW, &t) *)

(** [tty] is the terminal's current attribute set; [trace] lists the
    events performed so far, the most recent one first. *)
Record world : Type := mk_world {
  tty : termios;
  trace : list event
}.

Definition emit (e : event) (w : world) : world :=
  mk_world (tty w) (e :: trace w).

Definition goto_xy (x y : Z) (w : world) : world := emit (EvGotoXY x y) w.
Definition clear_line (w : world) : world := emit EvClearLine w.
Definition clear_screen (w : world) : world := emit EvClearScreen w.
Definition printf (s : list ascii) (w : world) : world := emit (EvPrint s) w.

(** [static void make_alert_sound(void) { printf("\a"); }] *)
Definition make_alert_sound (w : world) : world := emit EvBell w.

(** [tcgetattr] reads the current attributes; [tcsetattr] installs new
    ones.  Both are taken to succeed: the source ignores their results. *)
Definition tcgetattr (w : world) : termios := tty w.

Definition tcsetattr (t : termios) (w : world) : world :=
  mk_world t (EvTcSetAttr t :: trace w).

(** Observers of a trace. *)
Fixpoint alerts (tr : list event) : nat :=
  match tr with
  | [] => O
  | EvBell :: tr' => S (alerts tr')
  | _ :: tr' => alerts tr'
  end.

Fixpoint tcsetattr_calls (tr : list event) : list termios :=
  match tr with
  | [] => []
  | EvTcSetAttr t :: tr' => t :: tcsetattr_calls tr'
  | _ :: tr' => tcsetattr_calls tr'
  end.

(** ** Local variables of [show_int_input_dialog] *)

Record locals : Type := mk_locals {
  ret_val : Z;                  (* int32_t ret_val                       *)
  input_buffer : list ascii;    (* char input_buffer[INPUT_BUFFER_MAX_LEN] *)
  n_input_chars : Z             (* int32_t n_input_chars                 *)
}.

(** [ret_val = 1; memset(input_buffer, 0, sizeof(input_buffer));
     n_input_chars = 0;] *)
Definition initial_locals : locals :=
  mk_locals 1 (repeat NUL (Z.to_nat INPUT_BUFFER_MAX_LEN)) 0.

(** The digits currently shown: the first [n_input_chars] cells. *)
Definition contents (st : locals) : list ascii :=
  firstn (Z.to_nat (n_input_chars st)) (input_buffer st).

(** ** Array accesses *)

(** What goes wrong when the C code leaves defined behaviour. *)
Inductive fault : Type :=
| OutOfBounds (index : Z) (size : Z)   (* write outside the array          *)
| Unterminated                         (* string without a NUL in the array *)
| NotRepresentable (value : Z).        (* atoi result outside int          *)

Fixpoint update (buf : list ascii) (i : nat) (c : ascii) : list ascii :=
  match buf, i with
  | [], _ => []
  | _ :: t, O => c :: t
  | h :: t, S j => h :: update t j c
  end.

(** [buf[i] = c]: defined only inside the array. *)
Definition store (buf : list ascii) (i : Z) (c : ascii)
  : fault + list ascii :=
  if (0 <=? i) && (i <? Z.of_nat (length buf))
  then inr (update buf (Z.to_nat i) c)
  else inl (OutOfBounds i (Z.of_nat (length buf))).

(** The C string held in an array: the characters before the first NUL. *)
Fixpoint c_string (buf : list ascii) : option (list ascii) :=
  match buf with
  | [] => None
  | c :: t =>
      if (c =? NUL)%char then Some []
      else match c_string t with
           | Some s => Some (c :: s)
           | None => None
           end
  end.

(** Characters written by [printf("%.*s", n, buf)]: at most [n], stopping
    at a NUL; a negative precision counts as none given. *)
Fixpoint upto_nul (buf : list ascii) : list ascii :=
  match buf with
  | [] => []
  | c :: t => if (c =? NUL)%char then [] else c :: upto_nul t
  end.

Definition printf_prec_s (n : Z) (buf : list ascii) : list ascii :=
  if n <? 0 then upto_nul buf else upto_nul (firstn (Z.to_nat n) buf).

(** ** [atoi] of <stdlib.h> *)

Definition digit_value (c : ascii) : Z := code c - 48.

Fixpoint skip_spaces (s : list ascii) : list ascii :=
  match s with
  | c :: t => if isspace c then skip_spaces t else s
  | [] => []
  end.

(** The digit loop: [acc = 10 * acc + (c - '0')] while [c] is a digit. *)
Fixpoint digits_acc (s : list ascii) (acc : Z) : Z :=
  match s with
  | c :: t => if isdigit c then digits_acc t (10 * acc + digit_value c) else acc
  | [] => acc
  end.

Definition strtol10 (s : list ascii) : Z :=
  match skip_spaces s with
  | c :: t =>
      if (c =? "-")%char then - digits_acc t 0
      else if (c =? "+")%char then digits_acc t 0
      else digits_acc (c :: t) 0
  | [] => 0
  end.

(** [atoi(s)] is the converted value when an [int] can hold it; ISO C
    leaves the call undefined otherwise. *)
Definition atoi (s : list ascii) : fault + Z :=
  let v := strtol10 s in
  if (INT32_MIN <=? v) && (v <=? INT32_MAX) then inr v
  else inl (NotRepresentable v).

(** ** One iteration of the [while (1)] loop *)

Definition set_ret_val (v : Z) (st : locals) : locals :=
  mk_locals v (input_buffer st) (n_input_chars st).

Definition set_n_input_chars (n : Z) (st : locals) : locals :=
  mk_locals (ret_val st) (input_buffer st) n.

(** How control leaves the body of the loop. *)
Inductive flow : Type :=
| Next (st : locals) (w : world)     (* end of the body: next iteration *)
| Break (st : locals) (w : world)    (* [break]                         *)
| Abort (f : fault) (w : world).     (* undefined behaviour             *)

(** [if (c == '\n') { if (!n_input_chars) make_alert_sound(); else break; }]
    [None] stands for the [break]. *)
Definition on_return (c : ascii) (st : locals) (w : world) : option world :=
  if (c =? RETURN)%char then
    if n_input_chars st =? 0 then Some (make_alert_sound w) else None
  else Some w.

(** [if (!isdigit(c)) { ... } else { ... }]: delete, append or reject. *)
Definition edit_buffer (c : ascii) (st : locals) (w : world)
  : fault + (locals * world) :=
  if negb (isdigit c) then
    if ("d" =? c)%char then
      if negb (n_input_chars st =? 0)
      then inr (set_n_input_chars (wrap32 (n_input_chars st - 1)) st, w)
      else inr (st, make_alert_sound w)
    else inr (st, make_alert_sound w)
  else
    if n_input_chars st <? INPUT_BUFFER_MAX_LEN then
      match store (input_buffer st) (n_input_chars st) c with
      | inr buf =>
          inr (mk_locals (ret_val st) buf (wrap32 (n_input_chars st + 1)), w)
      | inl f => inl f
      end
    else inr (st, make_alert_sound w).

(** [(int32_t) strlen(INPUT_PREFIX)] *)
Definition prefix_len : Z := Z.of_nat (length INPUT_PREFIX).

(** Redrawing the bottom line after the body. *)
Definition redraw (x y : Z) (st : locals) (w : world) : world :=
  let w := goto_xy x (wrap32 (y + 1)) w in
  let w := clear_line w in
  let w := printf INPUT_PREFIX w in
  let w := goto_xy (wrap32 (x + prefix_len)) (wrap32 (y + 1)) w in
  printf (printf_prec_s (n_input_chars st) (input_buffer st)) w.

(** The body of the loop for the character [c] that [getchar] delivered. *)
Definition iteration (x y : Z) (c : ascii) (st : locals) (w : world) : flow :=
  if (c =? ESCAPE)%char then Break (set_ret_val 0 st) w
  else
    match on_return c st w with
    | None => Break st w
    | Some w =>
        match edit_buffer c st w with
        | inl f => Abort f w
        | inr (st, w) => Next st (redraw x y st w)
        end
    end.

(** ** After the loop *)

(** What a call of the dialog comes to on a given finite input. *)
Inductive outcome : Type :=
| Returned (result : Z) (input : Z) (unread : list ascii) (w : world)
    (* the function returns [result], having set [*input_ptr = input] *)
| Blocked (st : locals) (w : world)
    (* every character was consumed and [getchar] waits for more *)
| Undefined (f : fault) (w : world).
    (* the execution left defined behaviour *)

(** [if (ret_val) { input_buffer[n_input_chars] = 0;
                     *input_ptr = atoi(input_buffer); }] and the common tail
    [printf("\n"); return ret_val;] *)
Definition confirmed_exit (unread : list ascii) (st : locals) (w : world)
  : outcome :=
  match store (input_buffer st) (n_input_chars st) NUL with
  | inl f => Undefined f w
  | inr buf =>
      match c_string buf with
      | None => Undefined Unterminated w
      | Some s =>
          match atoi s with
          | inl f => Undefined f w
          | inr v => Returned (ret_val st) v unread (printf [RETURN] w)
          end
      end
  end.

(** [else { goto_xy(...); clear_line(); printf("Cancelled\n");
            *input_ptr = 0; }] and the common tail. *)
Definition cancelled_exit (x y : Z) (unread : list ascii) (st : locals)
                          (w : world) : outcome :=
  let w := goto_xy (wrap32 (x + prefix_len)) (wrap32 (y + 1)) w in
  let w := clear_line w in
  let w := printf (chars "Cancelled" ++ [RETURN]) w in
  Returned (ret_val st) 0 unread (printf [RETURN] w).

(** Restoring the attributes, then one of the two exits. *)
Definition after_loop (x y : Z) (old_tio : termios) (unread : list ascii)
                      (st : locals) (w : world) : outcome :=
  let w := tcsetattr old_tio w in
  if negb (ret_val st =? 0) then confirmed_exit unread st w
  else cancelled_exit x y unread st w.

(** [while (1) { c = getchar(); ... }] over the characters of standard
    input. *)
Fixpoint loop (x y : Z) (old_tio : termios) (stdin : list ascii)
              (st : locals) (w : world) : outcome :=
  match stdin with
  | [] => Blocked st w
  | c :: rest =>
      match iteration x y c st w with
      | Next st' w' => loop x y old_tio rest st' w'
      | Break st' w' => after_loop x y old_tio rest st' w'
      | Abort f w' => Undefined f w'
      end
  end.

(** ** The dialog *)

Definition show_int_input_dialog (x y : Z) (prompt : list ascii)
                                 (stdin : list ascii) (w : world) : outcome :=
  let st := initial_locals in
  let w := goto_xy x y w in
  let w := clear_line w in
  let w := printf prompt w in
  let w := goto_xy x (wrap32 (y + 1)) w in
  let w := clear_line w in
  let w := printf INPUT_PREFIX w in
  let old_tio := tcgetattr w in
  let new_tio := new_term_attribs old_tio in
  let w := tcsetattr new_tio w in
  let w := goto_xy (wrap32 (x + prefix_len)) (wrap32 (y + 1)) w in
  loop x y old_tio stdin st w.

(** The world at the top of the loop, and the attributes saved there. *)
Definition enter_dialog (x y : Z) (prompt : list ascii) (w : world) : world :=
  let w := goto_xy x y w in
  let w := clear_line w in
  let w := printf prompt w in
  let w := goto_xy x (wrap32 (y + 1)) w in
  let w := clear_line w in
  let w := printf INPUT_PREFIX w in
  let w := tcsetattr (new_term_attribs (tcgetattr w)) w in
  goto_xy (wrap32 (x + prefix_len)) (wrap32 (y + 1)) w.

(** The caller's reading of the result, as [main] does: a non-zero return
    value is a confirmed input, zero a cancelled one. *)
Inductive DialogOutcome : Type :=
| Confirmed (value : Z)
| Cancelled.

Definition dialog_outcome (o : outcome) : option DialogOutcome :=
  match o with
  | Returned r v _ _ => Some (if r =? 0 then Cancelled else Confirmed v)
  | _ => None
  end.

Definition world_of (o : outcome) : world :=
  match o with
  | Returned _ _ _ w => w
  | Blocked _ w => w
  | Undefined _ w => w
  end.

(** The call [main] makes. *)
Definition main_prompt : list ascii := chars "Enter your number: ".

Definition main_dialog (stdin : list ascii) (w : world) : outcome :=
  show_int_input_dialog 1 1 main_prompt stdin w.

(** A terminal in its usual cooked mode, nothing done yet. *)
Definition cooked_tty : termios :=
  mk_termios 17664 5 191 35387 [].

Definition fresh_world : world := mk_world cooked_tty [].

(** Eleven digits: one more than an [int32_t] in decimal ever needs. *)
Definition digits11 : list ascii := chars "12345678901".

(** ** Decimal notation *)

(** The number a sequence of decimal digits denotes by positional
    notation, most significant digit first: each digit weighs ten to the
    number of digits after it.  This is the reference the conversion done
    by [atoi] is compared with; it is not part of the program. *)
Fixpoint decimal_value (ds : list ascii) : Z :=
  match ds with
  | [] => 0
  | d :: rest => digit_value d * 10 ^ Z.of_nat (length rest) + decimal_value rest
  end.

(** ** The loop invariant *)

(** What holds of the locals at the top of every iteration: [ret_val] is
    still 1, the array has its declared size, and the count is an index
    between 0 and that size. *)
Definition editing (st : locals) : Prop :=
  ret_val st = 1 /\
  length (input_buffer st) = Z.to_nat INPUT_BUFFER_MAX_LEN /\
  0 <= n_input_chars st <= INPUT_BUFFER_MAX_LEN.

(** The events a keystroke can be rejected for. *)
Definition illegal_char (c : ascii) : bool :=
  negb (isdigit c) && negb ("d" =? c)%char
  && negb (c =? ESCAPE)%char && negb (c =? RETURN)%char.

Definition delete_on_empty (c : ascii) (st : locals) : bool :=
  ("d" =? c)%char && (n_input_chars st =? 0).

Definition confirm_on_empty (c : ascii) (st : locals) : bool :=
  (c =? RETURN)%char && (n_input_chars st =? 0).

(** A digit that the code itself refuses: the guard
    [n_input_chars < INPUT_BUFFER_MAX_LEN] of the append branch fails. *)
Definition digit_refused (c : ascii) (st : locals) : bool :=
  isdigit c && negb (n_input_chars st <? INPUT_BUFFER_MAX_LEN).

(** The keys the code answers with an alert. *)
Definition rejected (c : ascii) (st : locals) : bool :=
  illegal_char c || delete_on_empty c st
  || confirm_on_empty c st || digit_refused c st.

(** The capacity the specification gives the digit buffer: ten digits,
    one cell of the array being kept for the terminator. *)
Definition MAX_DIGITS : Z := 10.

(** A digit past capacity as the specification has it: a digit that
    arrives when [MAX_DIGITS] digits are already held. *)
Definition digit_past_capacity (c : ascii) (st : locals) : bool :=
  isdigit c && (MAX_DIGITS <=? n_input_chars st).

(** The rejected input events of the specification: an illegal
    character, delete on an empty buffer, confirm on an empty buffer, a
    digit past capacity. *)
Definition rejected_event (c : ascii) (st : locals) : bool :=
  illegal_char c || delete_on_empty c st
  || confirm_on_empty c st || digit_past_capacity c st.

Definition all_digits (ds : list ascii) : Prop :=
  Forall (fun c => isdigit c = true) ds.

(** ** [main] *)

(** The character of a decimal digit [0..9]. *)
Definition digit_char (d : Z) : ascii := ascii_of_N (Z.to_N (48 + d)).

(** The digits of a non-negative number, least significant first, pushed
    in front of [acc]; [fuel] bounds their number. *)
Fixpoint decimal_digits (fuel : nat) (z : Z) (acc : list ascii) : list ascii :=
  match fuel with
  | O => acc
  | S f =>
      let acc' := digit_char (z mod 10) :: acc in
      if z / 10 =? 0 then acc' else decimal_digits f (z / 10) acc'
  end.

(** What [printf("%d", z)] writes for an [int]: at most ten digits, after
    a minus sign when [z] is negative. *)
Definition printf_d (z : Z) : list ascii :=
  if z <? 0 then "-"%char :: decimal_digits 10 (- z) []
  else decimal_digits 10 z [].

(** How a run of [main] ends. *)
Inductive main_outcome : Type :=
| Exited (status : Z) (w : world)        (* [return status;]               *)
| MainBlocked (w : world)                (* the dialog waits for a key     *)
| MainUndefined (f : fault) (w : world). (* the dialog left defined behaviour *)

(** [clear_screen();
     if (show_int_input_dialog(1, 1, "Enter your number: ", &n))
       printf("Your number is %d\n", n);
     return 0;] *)
Definition main (stdin : list ascii) (w : world) : main_outcome :=
  let w := clear_screen w in
  match show_int_input_dialog 1 1 main_prompt stdin w with
  | Returned r n _ w =>
      if negb (r =? 0)
      then Exited 0 (printf (chars "Your number is " ++ printf_d n ++ [RETURN]) w)
      else Exited 0 w
  | Blocked _ w => MainBlocked w
  | Undefined f w => MainUndefined f w
  end.

(** ** Reference notions for the properties *)

(** What a key means for the sequence of digits typed so far, told without
    the array: a digit is added at the end while there are fewer than
    [INPUT_BUFFER_MAX_LEN] of them, 'd' takes the last one off, any other
    key changes nothing. *)
Definition type_key (ds : list ascii) (c : ascii) : list ascii :=
  if isdigit c then
    if Z.of_nat (length ds) <? INPUT_BUFFER_MAX_LEN then ds ++ [c] else ds
  else if ("d" =? c)%char then removelast ds
  else ds.

Definition typed_from (ds : list ascii) (keys : list ascii) : list ascii :=
  fold_left type_key keys ds.

Definition typed (keys : list ascii) : list ascii := typed_from [] keys.

(** A decimal numeral without its leading zeros; the last digit stays. *)
Fixpoint strip_zeros (ds : list ascii) : list ascii :=
  match ds with
  | d :: rest =>
      match rest with
      | [] => ds
      | _ :: _ => if (d =? "0")%char then strip_zeros rest else ds
      end
  | [] => []
  end.

(** The bits that raw mode switches off. *)
Definition cooked_bits : Z := Z.lor ICANON (Z.lor ECHO ISIG).

(** * Properties *)

(** ** Integers and characters *)

Lemma wrap32_small (z : Z) : INT32_MIN <= z <= INT32_MAX -> wrap32 z = z.
Proof.
  unfold INT32_MIN, INT32_MAX, wrap32. intros H.
  rewrite Z.mod_small by lia. lia.
Qed.

Lemma isdigit_range (c : ascii) : isdigit c = true -> 48 <= code c <= 57.
Proof. unfold isdigit. intros H. apply andb_true_iff in H. lia. Qed.

Lemma digit_value_range (c : ascii) : isdigit c = true -> 0 <= digit_value c <= 9.
Proof. intros H. apply isdigit_range in H. unfold digit_value. lia. Qed.

#[local] Ltac char_cases c :=
  destruct c as [[] [] [] [] [] [] [] []]; try discriminate; try reflexivity.

Lemma digit_not_special (c : ascii) :
  isdigit c = true ->
  (c =? NUL)%char = false /\ (c =? ESCAPE)%char = false /\
  (c =? RETURN)%char = false /\ ("d" =? c)%char = false /\
  (c =? "-")%char = false /\ (c =? "+")%char = false /\ isspace c = false.
Proof. char_cases c; intros _; repeat split. Qed.

(** ** Traces *)

Lemma redraw_tty x y st w : tty (redraw x y st w) = tty w.
Proof. reflexivity. Qed.

Lemma redraw_alerts x y st w :
  alerts (trace (redraw x y st w)) = alerts (trace w).
Proof. reflexivity. Qed.

Lemma redraw_tcsetattr_calls x y st w :
  tcsetattr_calls (trace (redraw x y st w)) = tcsetattr_calls (trace w).
Proof. reflexivity. Qed.

(** ** Arrays *)

Lemma update_length (buf : list ascii) (i : nat) (c : ascii) :
  length (update buf i c) = length buf.
Proof.
  revert i. induction buf as [|h t IH]; intros [|j]; simpl; auto.
Qed.

Lemma update_app (pre : list ascii) (old c : ascii) (post : list ascii) :
  update (pre ++ old :: post) (length pre) c = pre ++ c :: post.
Proof. induction pre as [|h t IH]; simpl; [reflexivity | now rewrite IH]. Qed.

Lemma store_length (buf buf' : list ascii) (i : Z) (c : ascii) :
  store buf i c = inr buf' -> length buf' = length buf.
Proof.
  unfold store. destruct (_ && _); [|discriminate].
  intros H. injection H as <-. apply update_length.
Qed.

Lemma store_in_bounds (buf : list ascii) (i : Z) (c : ascii) :
  0 <= i < Z.of_nat (length buf) ->
  store buf i c = inr (update buf (Z.to_nat i) c).
Proof.
  intros H. unfold store.
  replace (0 <=? i) with true by (symmetry; apply Z.leb_le; lia).
  replace (i <? Z.of_nat (length buf)) with true
    by (symmetry; apply Z.ltb_lt; lia).
  reflexivity.
Qed.

Lemma store_out_of_bounds (buf : list ascii) (i : Z) (c : ascii) :
  Z.of_nat (length buf) <= i ->
  store buf i c = inl (OutOfBounds i (Z.of_nat (length buf))).
Proof.
  intros H. unfold store.
  replace (i <? Z.of_nat (length buf)) with false
    by (symmetry; apply Z.ltb_ge; lia).
  now rewrite andb_false_r.
Qed.

Lemma firstn_pred_removelast (A : Type) (l : list A) (k : nat) :
  (S k <= length l)%nat -> firstn k l = removelast (firstn (S k) l).
Proof.
  revert k. induction l as [|h t IH]; intros k Hk; simpl in Hk; [lia|].
  destruct k as [|k].
  - destruct t; reflexivity.
  - change (firstn (S (S k)) (h :: t)) with (h :: firstn (S k) t).
    change (firstn (S k) (h :: t)) with (h :: firstn k t).
    rewrite (IH k) by lia.
    destruct t as [|h' t']; [simpl in Hk; lia | reflexivity].
Qed.

Lemma c_string_digits (ds post : list ascii) :
  all_digits ds -> c_string (ds ++ NUL :: post) = Some ds.
Proof.
  induction 1 as [|d ds Hd _ IH]; [reflexivity|].
  simpl. destruct (digit_not_special d Hd) as [-> _]. now rewrite IH.
Qed.

(** ** [atoi] on digit strings *)

Lemma decimal_value_nonneg (ds : list ascii) :
  all_digits ds -> 0 <= decimal_value ds.
Proof.
  induction 1 as [|d ds Hd _ IH]; simpl; [lia|].
  apply digit_value_range in Hd.
  assert (0 < 10 ^ Z.of_nat (length ds)) by (apply Z.pow_pos_nonneg; lia).
  nia.
Qed.

Lemma digits_acc_decimal (ds : list ascii) (acc : Z) :
  all_digits ds ->
  digits_acc ds acc = acc * 10 ^ Z.of_nat (length ds) + decimal_value ds.
Proof.
  intros H. revert acc. induction H as [|d ds Hd _ IH]; intros acc.
  - simpl. lia.
  - cbn [digits_acc decimal_value length]. rewrite Hd, IH.
    rewrite Nat2Z.inj_succ, Z.pow_succ_r by lia. ring.
Qed.

Lemma strtol10_digits (ds : list ascii) :
  all_digits ds -> strtol10 ds = decimal_value ds.
Proof.
  intros H. destruct H as [|d ds Hd Hds]; [reflexivity|].
  unfold strtol10. cbn [skip_spaces].
  destruct (digit_not_special d Hd) as (_ & _ & _ & _ & Hminus & Hplus & Hsp).
  rewrite Hsp, Hminus, Hplus.
  rewrite digits_acc_decimal by (constructor; assumption). lia.
Qed.

Lemma atoi_digits (ds : list ascii) :
  all_digits ds -> decimal_value ds <= INT32_MAX ->
  atoi ds = inr (decimal_value ds).
Proof.
  intros H Hmax. unfold atoi. rewrite strtol10_digits by assumption.
  pose proof (decimal_value_nonneg ds H) as H0.
  replace (INT32_MIN <=? decimal_value ds) with true
    by (symmetry; apply Z.leb_le; unfold INT32_MIN; lia).
  replace (decimal_value ds <=? INT32_MAX) with true
    by (symmetry; apply Z.leb_le; lia).
  reflexivity.
Qed.

(** ** One iteration *)

(** No iteration touches the terminal attributes. *)
Lemma iteration_terminal x y c st w :
  match iteration x y c st w with
  | Next _ w' | Break _ w' | Abort _ w' =>
      tty w' = tty w /\
      tcsetattr_calls (trace w') = tcsetattr_calls (trace w)
  end.
Proof.
  unfold iteration, on_return, edit_buffer.
  destruct (c =? ESCAPE)%char; [split; reflexivity|].
  destruct (c =? RETURN)%char; [destruct (n_input_chars st =? 0)|];
    try (split; reflexivity);
    destruct (negb (isdigit c));
    repeat match goal with
           | |- context [if ?b then _ else _] => destruct b
           | |- context [match store ?b ?i ?ch with _ => _ end] =>
               destruct (store b i ch)
           end;
    split; reflexivity.
Qed.

(** The invariant is kept, and inside the loop no write leaves the array. *)
Lemma iteration_editing x y c st w :
  editing st ->
  match iteration x y c st w with
  | Next st' _ => editing st'
  | Break st' w' =>
      w' = w /\ input_buffer st' = input_buffer st /\
      n_input_chars st' = n_input_chars st /\
      (ret_val st' = 0 /\ c = ESCAPE \/
       st' = st /\ c = RETURN /\ n_input_chars st <> 0)
  | Abort _ _ => False
  end.
Proof.
  intros (Hr & Hlen & Hn).
  unfold iteration, on_return, edit_buffer, editing.
  unfold INPUT_BUFFER_MAX_LEN in *.
  destruct (Ascii.eqb_spec c ESCAPE) as [->|Hesc].
  { repeat split. left. split; reflexivity. }
  destruct (Ascii.eqb_spec c RETURN) as [->|Hret].
  { destruct (Z.eqb_spec (n_input_chars st) 0) as [H0|H0].
    - cbn. repeat split; assumption || lia.
    - repeat split. right. repeat split. assumption. }
  destruct (isdigit c) eqn:Hd; cbn [negb].
  - destruct (Z.ltb_spec (n_input_chars st) 11) as [Hlt|Hge].
    + rewrite store_in_bounds by lia.
      rewrite wrap32_small by (unfold INT32_MIN, INT32_MAX; lia).
      repeat split; cbn; try assumption; try lia.
      rewrite update_length. assumption.
    + repeat split; assumption || lia.
  - destruct ("d" =? c)%char.
    + destruct (Z.eqb_spec (n_input_chars st) 0) as [H0|H0]; cbn [negb].
      * repeat split; assumption || lia.
      * rewrite wrap32_small by (unfold INT32_MIN, INT32_MAX; lia).
        repeat split; cbn; assumption || lia.
    + repeat split; assumption || lia.
Qed.

Lemma initial_locals_editing : editing initial_locals.
Proof.
  unfold editing, initial_locals, INPUT_BUFFER_MAX_LEN. cbn [ret_val input_buffer n_input_chars].
  rewrite repeat_length. lia.
Qed.

(** ** The loop *)

Lemma loop_app x y old_tio cs1 cs2 st w st' w' :
  loop x y old_tio cs1 st w = Blocked st' w' ->
  loop x y old_tio (cs1 ++ cs2) st w = loop x y old_tio cs2 st' w'.
Proof.
  revert st w. induction cs1 as [|c cs1 IH]; intros st w H.
  - cbn in H. injection H as -> ->. reflexivity.
  - cbn in *. destruct (iteration x y c st w) as [st1 w1|st1 w1|f w1].
    + apply IH. exact H.
    + unfold after_loop in H.
      destruct (negb (ret_val st1 =? 0)).
      * unfold confirmed_exit in H.
        destruct (store _ _ _); [discriminate|].
        destruct (c_string _); [|discriminate].
        destruct (atoi _); discriminate.
      * discriminate.
    + discriminate.
Qed.

(** While the loop waits for input the invariant holds and raw mode is on;
    the loop itself never leaves defined behaviour, and it is left with
    either ESCAPE or a RETURN on a non-empty buffer. *)
Lemma loop_blocked_editing x y old_tio cs st w st' w' :
  editing st ->
  loop x y old_tio cs st w = Blocked st' w' ->
  editing st' /\ tty w' = tty w /\
  tcsetattr_calls (trace w') = tcsetattr_calls (trace w).
Proof.
  revert st w. induction cs as [|c cs IH]; intros st w Hst H.
  - cbn in H. injection H as -> ->. auto.
  - cbn in H.
    pose proof (iteration_editing x y c st w Hst) as Hi.
    pose proof (iteration_terminal x y c st w) as Ht.
    destruct (iteration x y c st w) as [st1 w1|st1 w1|f w1].
    + destruct Ht as [Ht1 Ht2]. rewrite <- Ht1, <- Ht2.
      apply (IH st1 w1); assumption.
    + exfalso. unfold after_loop in H.
      destruct (negb (ret_val st1 =? 0)).
      * unfold confirmed_exit in H.
        destruct (store _ _ _); [discriminate|].
        destruct (c_string _); [|discriminate].
        destruct (atoi _); discriminate.
      * discriminate.
    + discriminate.
Qed.

(** The count of digits never passes the size of the array: on every
    input, wherever the loop stands. *)
Lemma count_bounded x y prompt cs st w w0 :
  show_int_input_dialog x y prompt cs w0 = Blocked st w ->
  0 <= n_input_chars st <= INPUT_BUFFER_MAX_LEN.
Proof.
  unfold show_int_input_dialog. intros H.
  apply loop_blocked_editing in H; [|apply initial_locals_editing].
  destruct H as ((_ & _ & Hn) & _). exact Hn.
Qed.


(** Typing digits into a buffer that has room for them: each one lands in
    the next free cell, and no alert sounds. *)
Lemma loop_digits x y old_tio r (ds pre : list ascii) (k : nat) (w : world) :
  all_digits ds ->
  (length pre + length ds + k = 11)%nat ->
  exists w',
    loop x y old_tio ds
         (mk_locals r (pre ++ repeat NUL (length ds + k))
                    (Z.of_nat (length pre))) w
    = Blocked (mk_locals r ((pre ++ ds) ++ repeat NUL k)
                         (Z.of_nat (length pre + length ds))) w' /\
    alerts (trace w') = alerts (trace w).
Proof.
  intros Hds. revert pre w.
  induction Hds as [|d ds Hd Hds IH]; intros pre w Hlen.
  - exists w. cbn. rewrite app_nil_r, Nat.add_0_r. split; reflexivity.
  - cbn [length] in Hlen.
    destruct (digit_not_special d Hd) as (_ & Hesc & Hret & _).
    cbn [loop]. unfold iteration, on_return, edit_buffer.
    rewrite Hesc, Hret, Hd. cbn [negb n_input_chars input_buffer ret_val].
    replace (Z.of_nat (length pre) <? INPUT_BUFFER_MAX_LEN) with true
      by (symmetry; apply Z.ltb_lt; unfold INPUT_BUFFER_MAX_LEN; lia).
    rewrite store_in_bounds
      by (rewrite length_app, repeat_length; cbn [length]; lia).
    rewrite Nat2Z.id. cbn [length Nat.add repeat].
    rewrite update_app.
    rewrite wrap32_small by (unfold INT32_MIN, INT32_MAX; lia).
    destruct (IH (pre ++ [d])
                 (redraw x y
                    (mk_locals r (pre ++ d :: repeat NUL (length ds + k))
                               (Z.of_nat (length pre) + 1)) w))
      as (w' & Hloop & Hal).
    { rewrite length_app. cbn [length]. lia. }
    exists w'. split.
    + etransitivity; [|etransitivity; [exact Hloop|]].
      * f_equal. f_equal.
        -- now rewrite <- app_assoc.
        -- rewrite length_app. cbn [length]. lia.
      * f_equal. f_equal.
        -- now rewrite <- (app_assoc pre [d] ds).
        -- rewrite length_app. cbn [length]. lia.
    + rewrite Hal. apply redraw_alerts.
Qed.

(** Whenever the function returns, the loop was left through the one
    [tcsetattr] call that follows it. *)
Lemma loop_returned_restores x y old_tio cs st w r v rest w' :
  loop x y old_tio cs st w = Returned r v rest w' ->
  tty w' = old_tio /\
  tcsetattr_calls (trace w') = old_tio :: tcsetattr_calls (trace w).
Proof.
  revert st w. induction cs as [|c cs IH]; intros st w H; [discriminate|].
  cbn [loop] in H.
  pose proof (iteration_terminal x y c st w) as Ht.
  destruct (iteration x y c st w) as [st1 w1|st1 w1|f w1];
    [| |discriminate]; destruct Ht as [Ht1 Ht2].
  - rewrite <- Ht2. apply (IH st1 w1). exact H.
  - rewrite <- Ht2. unfold after_loop in H.
    destruct (negb (ret_val st1 =? 0)).
    + unfold confirmed_exit in H.
      destruct (store _ _ _); [discriminate|].
      destruct (c_string _); [|discriminate].
      destruct (atoi _); [discriminate|].
      injection H as _ _ _ <-. split; reflexivity.
    + unfold cancelled_exit in H. injection H as _ _ _ <-.
      split; reflexivity.
Qed.

(** The conversion at the confirmed exit, for a buffer that holds the
    digits [ds] and still has a free cell after them. *)
Lemma confirmed_exit_digits r (ds : list ascii) (k : nat) unread w :
  all_digits ds -> decimal_value ds <= INT32_MAX ->
  confirmed_exit unread
    (mk_locals r (ds ++ repeat NUL (S k)) (Z.of_nat (length ds))) w
  = Returned r (decimal_value ds) unread (printf [RETURN] w).
Proof.
  intros Hds Hmax. unfold confirmed_exit.
  cbn [input_buffer n_input_chars ret_val].
  rewrite store_in_bounds
    by (rewrite length_app, repeat_length; cbn [length]; lia).
  rewrite Nat2Z.id. cbn [repeat]. rewrite update_app.
  rewrite c_string_digits by assumption.
  rewrite atoi_digits by assumption. reflexivity.
Qed.

(** Eleven digits typed into the fresh dialog: all of them are stored. *)
Lemma eleven_digits_stored x y prompt w :
  exists w',
    show_int_input_dialog x y prompt digits11 w
    = Blocked (mk_locals 1 digits11 11) w' /\
    alerts (trace w') = alerts (trace w).
Proof.
  destruct (loop_digits x y (tty w) 1 digits11 [] 0
              (enter_dialog x y prompt w))
    as (w' & Hloop & Hal).
  - repeat constructor.
  - reflexivity.
  - exists w'. split; [exact Hloop | exact Hal].
Qed.

(** Worked runs of the call [main] makes. *)
Example run_123 :
  dialog_outcome (main_dialog (chars "123" ++ [RETURN]) fresh_world)
  = Some (Confirmed 123).
Proof. reflexivity. Qed.

Example run_12d3 :
  dialog_outcome (main_dialog (chars "12d3" ++ [RETURN]) fresh_world)
  = Some (Confirmed 13).
Proof. reflexivity. Qed.

Example run_return_then_escape :
  dialog_outcome (main_dialog [RETURN; ESCAPE] fresh_world) = Some Cancelled.
Proof. reflexivity. Qed.

Example empty_buffer_converts_to_zero :
  confirmed_exit [] initial_locals fresh_world
  = Returned 1 0 [] (printf [RETURN] fresh_world).
Proof. reflexivity. Qed.

(** * The claims *)

(** C1 (the code departs from the claim).  The claim bounds the number of
    digits by 10 and has the digit that arrives at length 10 rejected with
    an alert.  In the code the guard of the append branch compares the
    count with [INPUT_BUFFER_MAX_LEN], the size of the array, so the
    eleventh digit of "12345678901" is stored like the ten before it: the
    loop then waits with a count of 11, all eleven digits in the buffer,
    and no alert sounded. *)
Theorem eleventh_digit_is_accepted x y prompt w :
  exists st w',
    show_int_input_dialog x y prompt digits11 w = Blocked st w' /\
    n_input_chars st = 11 /\
    contents st = digits11 /\
    alerts (trace w') = alerts (trace w).
Proof.
  destruct (eleven_digits_stored x y prompt w) as (w' & Hrun & Hal).
  exists (mk_locals 1 digits11 11), w'.
  split; [exact Hrun|]. split; [reflexivity|].
  split; [reflexivity | exact Hal].
Qed.

(** C2 (the code departs from the claim).  On eleven digits followed by
    RETURN the claim expects the first ten digits confirmed and one alert.
    The code keeps all eleven without any alert, and at the confirmed exit
    the terminating write [input_buffer[11] = 0] falls outside the array of
    11 cells: the call does not come to [Confirmed 1234567890]. *)
Theorem eleven_digits_then_return x y prompt w :
  exists w',
    show_int_input_dialog x y prompt (digits11 ++ [RETURN]) w
    = Undefined (OutOfBounds 11 11) w' /\
    alerts (trace w') = alerts (trace w) /\
    dialog_outcome
      (show_int_input_dialog x y prompt (digits11 ++ [RETURN]) w)
    <> Some (Confirmed 1234567890).
Proof.
  destruct (eleven_digits_stored x y prompt w) as (w' & Hrun & Hal).
  assert (Hfull :
            show_int_input_dialog x y prompt (digits11 ++ [RETURN]) w
            = Undefined (OutOfBounds 11 11) (tcsetattr (tty w) w')).
  { unfold show_int_input_dialog in *.
    rewrite (loop_app _ _ _ _ _ _ _ _ _ Hrun). reflexivity. }
  exists (tcsetattr (tty w) w').
  split; [exact Hfull|]. split; [exact Hal|].
  rewrite Hfull. discriminate.
Qed.

(** C3 (the code departs from the claim).  The claim has the count
    strictly below [INPUT_BUFFER_MAX_LEN] whenever the confirmed exit is
    reached.  After the eleven digits of "12345678901" the count equals
    [INPUT_BUFFER_MAX_LEN]; RETURN then breaks out of the loop with
    [ret_val] still 1, and the write of the terminator at that index is
    outside the array. *)
Theorem confirmed_exit_with_full_array x y prompt w :
  exists st w',
    show_int_input_dialog x y prompt digits11 w = Blocked st w' /\
    iteration x y RETURN st w' = Break st w' /\
    ret_val st = 1 /\
    n_input_chars st = INPUT_BUFFER_MAX_LEN /\
    Z.of_nat (length (input_buffer st)) = INPUT_BUFFER_MAX_LEN /\
    store (input_buffer st) (n_input_chars st) NUL
    = inl (OutOfBounds INPUT_BUFFER_MAX_LEN INPUT_BUFFER_MAX_LEN).
Proof.
  destruct (eleven_digits_stored x y prompt w) as (w' & Hrun & _).
  exists (mk_locals 1 digits11 11), w'.
  split; [exact Hrun|]. repeat split.
Qed.

(** C4 as stated fails: "9999999999" is a sequence of ten digits whose
    decimal value the [int] result of [atoi] (and the [int32_t] behind
    [input_ptr]) cannot hold, so the dialog does not hand back that
    value. *)
Lemma ten_nines_not_converted :
  all_digits (chars "9999999999") /\
  (length (chars "9999999999") <= 10)%nat /\
  decimal_value (chars "9999999999") = 9999999999 /\
  dialog_outcome (main_dialog (chars "9999999999" ++ [RETURN]) fresh_world)
  <> Some (Confirmed (decimal_value (chars "9999999999"))).
Proof.
  split; [repeat constructor|]. split; [cbn; lia|].
  split; [reflexivity|]. vm_compute. discriminate.
Qed.

(** C4 (amended).  For every sequence of at most 10 digit characters whose
    decimal value does not exceed [INT32_MAX] = 2147483647: typing the
    digits leaves exactly that sequence in the buffer, the conversion at
    the confirmed exit yields exactly its decimal value (so "007" gives
    7, and the empty buffer gives 0), and, when the sequence is not empty,
    the dialog closed by RETURN returns 1 with that value. *)
Theorem digits_convert_to_their_value x y prompt (ds : list ascii) w :
  all_digits ds ->
  (length ds <= 10)%nat ->
  decimal_value ds <= INT32_MAX ->
  exists st w',
    show_int_input_dialog x y prompt ds w = Blocked st w' /\
    contents st = ds /\
    (forall unread w1,
        confirmed_exit unread st w1
        = Returned 1 (decimal_value ds) unread (printf [RETURN] w1)) /\
    (ds <> [] ->
     forall unread, exists w'',
       show_int_input_dialog x y prompt (ds ++ RETURN :: unread) w
       = Returned 1 (decimal_value ds) unread w'').
Proof.
  intros Hds Hlen Hmax.
  destruct (loop_digits x y (tcgetattr (printf INPUT_PREFIX
              (clear_line (goto_xy x (wrap32 (y + 1))
                 (printf prompt (clear_line (goto_xy x y w)))))))
              1 ds [] (11 - length ds) (enter_dialog x y prompt w) Hds)
    as (w' & Hloop & _).
  { cbn [length]. lia. }
  cbn [app length Z.of_nat Nat.add] in Hloop.
  replace (length ds + (11 - length ds))%nat with 11%nat in Hloop by lia.
  eexists. exists w'. split; [exact Hloop|].
  split.
  { unfold contents. cbn [n_input_chars input_buffer].
    rewrite Nat2Z.id, firstn_app, Nat.sub_diag, firstn_all.
    cbn [firstn]. apply app_nil_r. }
  assert (Hexit : forall unread w1,
             confirmed_exit unread
               (mk_locals 1 (ds ++ repeat NUL (11 - length ds))
                          (Z.of_nat (length ds))) w1
             = Returned 1 (decimal_value ds) unread (printf [RETURN] w1)).
  { intros unread w1.
    replace (11 - length ds)%nat with (S (10 - length ds)) by lia.
    apply confirmed_exit_digits; assumption. }
  split; [exact Hexit|].
  intros Hne unread.
  unfold show_int_input_dialog in *.
  rewrite (loop_app _ _ _ _ _ _ _ _ _ Hloop).
  cbn [loop]. unfold iteration, on_return.
  cbn [n_input_chars Ascii.eqb Bool.eqb RETURN ESCAPE].
  replace (Z.of_nat (length ds) =? 0) with false.
  2:{ symmetry. apply Z.eqb_neq. destruct ds; [congruence | cbn; lia]. }
  unfold after_loop. cbn [ret_val Z.eqb negb].
  eexists. apply Hexit.
Qed.

Lemma digits_convert_to_their_value_witness :
  all_digits (chars "007") /\
  (length (chars "007") <= 10)%nat /\
  decimal_value (chars "007") <= INT32_MAX /\
  exists st w',
    show_int_input_dialog 1 1 main_prompt (chars "007") fresh_world
    = Blocked st w' /\
    contents st = chars "007" /\
    (forall unread w1,
        confirmed_exit unread st w1
        = Returned 1 (decimal_value (chars "007")) unread
                   (printf [RETURN] w1)) /\
    (chars "007" <> [] ->
     forall unread, exists w'',
       show_int_input_dialog 1 1 main_prompt
                             (chars "007" ++ RETURN :: unread) fresh_world
       = Returned 1 (decimal_value (chars "007")) unread w'').
Proof.
  assert (H1 : all_digits (chars "007")) by (repeat constructor).
  assert (H2 : (length (chars "007") <= 10)%nat) by (simpl; lia).
  assert (H3 : decimal_value (chars "007") <= INT32_MAX)
    by (vm_compute; discriminate).
  split; [exact H1|]. split; [exact H2|]. split; [exact H3|].
  apply (digits_convert_to_their_value 1 1 main_prompt (chars "007")
           fresh_world H1 H2 H3).
Defined.

(** C5.  Whenever ESCAPE is read, whatever the buffer holds, the loop is
    left with [ret_val] set to 0 and the function returns 0 with
    [*input_ptr = 0]: the outcome is [Cancelled], and nothing is computed
    from the buffer. *)
Theorem escape_cancels x y old_tio unread (st : locals) (w : world) :
  iteration x y ESCAPE st w = Break (set_ret_val 0 st) w /\
  loop x y old_tio (ESCAPE :: unread) st w
  = cancelled_exit x y unread (set_ret_val 0 st) (tcsetattr old_tio w) /\
  exists w',
    loop x y old_tio (ESCAPE :: unread) st w = Returned 0 0 unread w' /\
    dialog_outcome (loop x y old_tio (ESCAPE :: unread) st w)
    = Some Cancelled.
Proof.
  split; [reflexivity|]. split; [reflexivity|].
  eexists. split; reflexivity.
Qed.

(** C6.  RETURN read while the buffer is empty does not leave the loop:
    the iteration runs to its end with the locals unchanged and the loop
    goes on with the next character.  RETURN read while the buffer is not
    empty breaks out of the loop at once, and from the editing state
    ([ret_val] = 1) what follows is the confirmed exit, once, with the
    rest of the input left unread. *)
Theorem return_key x y old_tio unread (st : locals) (w : world) :
  (n_input_chars st = 0 ->
   exists w',
     iteration x y RETURN st w = Next st w' /\
     loop x y old_tio (RETURN :: unread) st w
     = loop x y old_tio unread st w') /\
  (n_input_chars st <> 0 ->
   iteration x y RETURN st w = Break st w /\
   (ret_val st = 1 ->
    loop x y old_tio (RETURN :: unread) st w
    = confirmed_exit unread st (tcsetattr old_tio w))).
Proof.
  split.
  - intros H0. cbn [loop]. unfold iteration, on_return, edit_buffer.
    cbn [Ascii.eqb Bool.eqb RETURN ESCAPE]. rewrite H0.
    cbn. eexists. split; reflexivity.
  - intros Hn. apply Z.eqb_neq in Hn.
    cbn [loop]. unfold iteration, on_return.
    cbn [Ascii.eqb Bool.eqb RETURN ESCAPE]. rewrite Hn.
    split; [reflexivity|].
    intros Hr. unfold after_loop. rewrite Hr. reflexivity.
Qed.

Lemma return_key_witness :
  let empty := initial_locals in
  let one := mk_locals 1 (chars "7" ++ repeat NUL 10) 1 in
  n_input_chars empty = 0 /\
  n_input_chars one <> 0 /\
  ret_val one = 1 /\
  (exists w',
     iteration 1 1 RETURN empty fresh_world = Next empty w' /\
     loop 1 1 cooked_tty [RETURN; ESCAPE] empty fresh_world
     = loop 1 1 cooked_tty [ESCAPE] empty w') /\
  iteration 1 1 RETURN one fresh_world = Break one fresh_world /\
  loop 1 1 cooked_tty [RETURN; ESCAPE] one fresh_world
  = confirmed_exit [ESCAPE] one (tcsetattr cooked_tty fresh_world).
Proof.
  intros empty one.
  assert (H0 : n_input_chars empty = 0) by reflexivity.
  assert (H1 : n_input_chars one <> 0) by (simpl; lia).
  assert (H2 : ret_val one = 1) by reflexivity.
  split; [exact H0|]. split; [exact H1|]. split; [exact H2|].
  split.
  - apply (proj1 (return_key 1 1 cooked_tty [ESCAPE] empty fresh_world) H0).
  - destruct (proj2 (return_key 1 1 cooked_tty [ESCAPE] one fresh_world) H1)
      as [Hb Hc].
    split; [exact Hb | exact (Hc H2)].
Defined.

(** C7.  'd' read while the buffer is empty leaves the locals, and so the
    length, unchanged and sounds the alert (once).  'd' read while the
    buffer is not empty takes off exactly the last digit: the count drops
    by one, the digits shown are the former ones without the last, and no
    alert sounds. *)
Theorem delete_key x y (st : locals) (w : world) :
  (n_input_chars st = 0 ->
   iteration x y "d" st w = Next st (redraw x y st (make_alert_sound w)) /\
   alerts (trace (redraw x y st (make_alert_sound w)))
   = S (alerts (trace w))) /\
  (editing st -> n_input_chars st <> 0 ->
   exists st' w',
     iteration x y "d" st w = Next st' w' /\
     n_input_chars st' = n_input_chars st - 1 /\
     contents st' = removelast (contents st) /\
     input_buffer st' = input_buffer st /\
     alerts (trace w') = alerts (trace w)).
Proof.
  split.
  - intros H0. unfold iteration, on_return, edit_buffer.
    cbn [Ascii.eqb Bool.eqb RETURN ESCAPE isdigit code N_of_ascii].
    rewrite H0. split; reflexivity.
  - intros (Hr & Hlen & Hn) Hne. unfold INPUT_BUFFER_MAX_LEN in *.
    unfold iteration, on_return, edit_buffer.
    cbn [Ascii.eqb Bool.eqb RETURN ESCAPE].
    replace (isdigit "d") with false by reflexivity. cbn [negb].
    replace (n_input_chars st =? 0) with false
      by (symmetry; apply Z.eqb_neq; assumption).
    cbn [negb].
    rewrite wrap32_small by (unfold INT32_MIN, INT32_MAX; lia).
    do 2 eexists. split; [reflexivity|].
    split; [reflexivity|]. split; [|split; reflexivity].
    unfold contents, set_n_input_chars. cbn [n_input_chars input_buffer].
    replace (Z.to_nat (n_input_chars st))
      with (S (Z.to_nat (n_input_chars st - 1))) by lia.
    apply firstn_pred_removelast. lia.
Qed.

Lemma delete_key_witness :
  let empty := initial_locals in
  let two := mk_locals 1 (chars "12" ++ repeat NUL 9) 2 in
  n_input_chars empty = 0 /\
  editing two /\
  n_input_chars two <> 0 /\
  (iteration 1 1 "d" empty fresh_world
   = Next empty (redraw 1 1 empty (make_alert_sound fresh_world)) /\
   alerts (trace (redraw 1 1 empty (make_alert_sound fresh_world)))
   = S (alerts (trace fresh_world))) /\
  exists st' w',
    iteration 1 1 "d" two fresh_world = Next st' w' /\
    n_input_chars st' = n_input_chars two - 1 /\
    contents st' = removelast (contents two) /\
    input_buffer st' = input_buffer two /\
    alerts (trace w') = alerts (trace fresh_world).
Proof.
  intros empty two.
  assert (H0 : n_input_chars empty = 0) by reflexivity.
  assert (H1 : editing two)
    by (unfold editing, INPUT_BUFFER_MAX_LEN; simpl; lia).
  assert (H2 : n_input_chars two <> 0) by (simpl; lia).
  split; [exact H0|]. split; [exact H1|]. split; [exact H2|].
  split.
  - apply (proj1 (delete_key 1 1 empty fresh_world) H0).
  - apply (proj2 (delete_key 1 1 two fresh_world) H1 H2).
Defined.

(** Every key the code answers with an alert (a character that is neither
    a digit nor 'd' nor RETURN nor ESCAPE, 'd' on an empty buffer, RETURN
    on an empty buffer, a digit that fails the guard of the append branch)
    ends its iteration normally, so that the loop goes on, and leaves the
    buffer and the count as they were.  In particular the input "a1b2\n"
    sounds the alert for 'a' and for 'b' and comes to [Confirmed 12]. *)
Lemma refused_keys_are_harmless x y prompt c (st : locals) (w : world) :
  (rejected c st = true ->
   exists w',
     iteration x y c st w = Next st w' /\
     (alerts (trace w) < alerts (trace w'))%nat) /\
  (exists w',
     show_int_input_dialog x y prompt (chars "a1b2" ++ [RETURN]) w
     = Returned 1 12 [] w' /\
     dialog_outcome
       (show_int_input_dialog x y prompt (chars "a1b2" ++ [RETURN]) w)
     = Some (Confirmed 12) /\
     alerts (trace w') = (2 + alerts (trace w))%nat).
Proof.
  split.
  - unfold rejected, illegal_char, delete_on_empty, confirm_on_empty,
      digit_refused, iteration, on_return, edit_buffer.
    destruct (Ascii.eqb_spec c ESCAPE) as [->|_].
    { cbn. destruct (n_input_chars st =? 0); discriminate. }
    destruct (Ascii.eqb_spec c RETURN) as [->|_].
    { cbn [negb andb orb]. replace (isdigit RETURN) with false by reflexivity.
      replace ("d" =? RETURN)%char with false by reflexivity.
      cbn [negb andb orb].
      destruct (n_input_chars st =? 0); [|discriminate].
      intros _. eexists. split; [reflexivity|]. cbn. lia. }
    destruct (isdigit c) eqn:Hd.
    + destruct (digit_not_special c Hd) as (_ & _ & _ & -> & _).
      cbn [negb andb orb].
      destruct (n_input_chars st <? INPUT_BUFFER_MAX_LEN); [discriminate|].
      intros _. eexists. split; [reflexivity|]. cbn. lia.
    + cbn [negb andb orb]. destruct ("d" =? c)%char; cbn [negb andb orb].
      * destruct (n_input_chars st =? 0); [|discriminate].
        intros _. eexists. split; [reflexivity|]. cbn. lia.
      * intros _. eexists. split; [reflexivity|]. cbn. lia.
  - eexists. split; [reflexivity|]. split; reflexivity.
Qed.

(** C8 (the code departs from the claim).  The claim has every rejected
    input event, a digit past capacity among them, sound the alert and
    leave the buffer and its length unchanged.  After the ten digits of
    "1234567890" the buffer holds [MAX_DIGITS] digits, so that a further
    '1' is a digit past capacity.  The code does not reject it: the guard
    of the append branch still finds room in the array, the digit is
    stored in the last cell, the count goes to 11 and no alert sounds.
    (The keys the code does refuse behave as the claim says.) *)
Theorem digit_at_capacity_is_accepted x y prompt w :
  exists st w',
    show_int_input_dialog x y prompt (chars "1234567890") w = Blocked st w' /\
    n_input_chars st = MAX_DIGITS /\
    digit_past_capacity "1" st = true /\
    rejected_event "1" st = true /\
    exists st1 w1,
      iteration x y "1" st w' = Next st1 w1 /\
      n_input_chars st1 = n_input_chars st + 1 /\
      contents st1 = contents st ++ ["1"%char] /\
      input_buffer st1 <> input_buffer st /\
      alerts (trace w1) = alerts (trace w').
Proof.
  destruct (loop_digits x y (tty w) 1 (chars "1234567890") [] 1
              (enter_dialog x y prompt w))
    as (w' & Hloop & _).
  - repeat constructor.
  - reflexivity.
  - exists (mk_locals 1 (chars "1234567890" ++ [NUL]) 10), w'.
    split; [exact Hloop|]. split; [reflexivity|].
    split; [reflexivity|]. split; [reflexivity|].
    do 2 eexists. split; [reflexivity|].
    split; [reflexivity|]. split; [reflexivity|].
    split; [discriminate | reflexivity].
Qed.

(** C9.  On every call of the dialog that returns, by the confirmed exit
    as by the cancelled one, the terminal ends with exactly the attributes
    it had at entry, and the function has called [tcsetattr] twice: first
    with the raw-mode attributes, then, once, with the attributes that
    [tcgetattr] captured at entry. *)
Theorem terminal_restored x y prompt stdin w r v unread w' :
  show_int_input_dialog x y prompt stdin w = Returned r v unread w' ->
  tty w' = tty w /\
  tcsetattr_calls (trace w')
  = tty w :: new_term_attribs (tty w) :: tcsetattr_calls (trace w).
Proof.
  unfold show_int_input_dialog. intros H.
  apply loop_returned_restores in H. exact H.
Qed.

Lemma terminal_restored_witness :
  let confirmed := main_dialog (chars "12d3" ++ [RETURN]) fresh_world in
  let cancelled := main_dialog (chars "12" ++ [ESCAPE]) fresh_world in
  (exists w1, confirmed = Returned 1 13 [] w1 /\
     tty w1 = cooked_tty /\
     tcsetattr_calls (trace w1) = [cooked_tty; new_term_attribs cooked_tty]) /\
  (exists w0, cancelled = Returned 0 0 [] w0 /\
     tty w0 = cooked_tty /\
     tcsetattr_calls (trace w0) = [cooked_tty; new_term_attribs cooked_tty]).
Proof.
  intros confirmed cancelled. split.
  - eexists. split; [reflexivity|].
    apply (terminal_restored 1 1 main_prompt (chars "12d3" ++ [RETURN])
             fresh_world 1 13 [] _ eq_refl).
  - eexists. split; [reflexivity|].
    apply (terminal_restored 1 1 main_prompt (chars "12" ++ [ESCAPE])
             fresh_world 0 0 [] _ eq_refl).
Defined.

(** C10.  When RETURN is read while the buffer is empty, the alert sounds
    twice within that one iteration: once in the empty-buffer check of the
    RETURN branch, and once more because RETURN, being neither a digit nor
    'd', also takes the illegal-character branch.  The iteration then ends
    normally, the locals unchanged, and the loop goes on. *)
Theorem return_on_empty_alerts_twice x y (st : locals) (w : world) :
  n_input_chars st = 0 ->
  on_return RETURN st w = Some (make_alert_sound w) /\
  (forall w1, edit_buffer RETURN st w1 = inr (st, make_alert_sound w1)) /\
  iteration x y RETURN st w
  = Next st (redraw x y st (make_alert_sound (make_alert_sound w))) /\
  alerts (trace (redraw x y st (make_alert_sound (make_alert_sound w))))
  = (2 + alerts (trace w))%nat.
Proof.
  intros H0. unfold iteration, on_return, edit_buffer.
  cbn [Ascii.eqb Bool.eqb RETURN ESCAPE]. rewrite H0.
  repeat split.
Qed.

Lemma return_on_empty_alerts_twice_witness :
  n_input_chars initial_locals = 0 /\
  on_return RETURN initial_locals fresh_world
  = Some (make_alert_sound fresh_world) /\
  (forall w1,
      edit_buffer RETURN initial_locals w1
      = inr (initial_locals, make_alert_sound w1)) /\
  iteration 1 1 RETURN initial_locals fresh_world
  = Next initial_locals
         (redraw 1 1 initial_locals
                 (make_alert_sound (make_alert_sound fresh_world))) /\
  alerts (trace (redraw 1 1 initial_locals
                        (make_alert_sound (make_alert_sound fresh_world))))
  = (2 + alerts (trace fresh_world))%nat.
Proof.
  split; [reflexivity|].
  apply (return_on_empty_alerts_twice 1 1 initial_locals fresh_world eq_refl).
Defined.

(** * Further properties *)

(** ** Raw mode *)

Lemma raw_mask_value : to_uint32 NEW_TERM_ATTRIBS_MASK = 4294967284.
Proof. reflexivity. Qed.

Lemma raw_lflag_ldiff (l : Z) :
  0 <= l < 4294967296 ->
  Z.land l (to_uint32 NEW_TERM_ATTRIBS_MASK) = Z.ldiff l cooked_bits.
Proof.
  intros Hl. rewrite raw_mask_value.
  apply Z.bits_inj'. intros i Hi.
  rewrite Z.land_spec, Z.ldiff_spec.
  destruct (Z.ltb_spec i 32) as [Hlt|Hge].
  - assert (Hi' : i = 0 \/ i = 1 \/ i = 2 \/ i = 3 \/ i = 4 \/ i = 5 \/ i = 6
                  \/ i = 7 \/ i = 8 \/ i = 9 \/ i = 10 \/ i = 11 \/ i = 12
                  \/ i = 13 \/ i = 14 \/ i = 15 \/ i = 16 \/ i = 17 \/ i = 18
                  \/ i = 19 \/ i = 20 \/ i = 21 \/ i = 22 \/ i = 23 \/ i = 24
                  \/ i = 25 \/ i = 26 \/ i = 27 \/ i = 28 \/ i = 29 \/ i = 30
                  \/ i = 31) by lia.
    repeat (destruct Hi' as [->|Hi']; [reflexivity|]). subst i. reflexivity.
  - replace (Z.testbit l i) with false; [reflexivity|].
    symmetry. destruct (Z.eq_dec l 0) as [->|Hnz]; [apply Z.bits_0|].
    apply Z.bits_above_log2; [lia|].
    apply Z.lt_le_trans with 32; [|lia].
    apply Z.log2_lt_pow2; lia.
Qed.

(** X1.  The attributes installed for the dialog differ from the saved
    ones in the local flags only, and there exactly by having ICANON, ECHO
    and ISIG switched off: every other flag is as it was. *)
Theorem raw_mode_clears_three_flags (old_tio : termios) :
  0 <= c_lflag old_tio < 4294967296 ->
  let new_tio := new_term_attribs old_tio in
  c_iflag new_tio = c_iflag old_tio /\
  c_oflag new_tio = c_oflag old_tio /\
  c_cflag new_tio = c_cflag old_tio /\
  c_cc new_tio = c_cc old_tio /\
  Z.land (c_lflag new_tio) ICANON = 0 /\
  Z.land (c_lflag new_tio) ECHO = 0 /\
  Z.land (c_lflag new_tio) ISIG = 0 /\
  (forall i, 0 <= i -> Z.testbit cooked_bits i = false ->
             Z.testbit (c_lflag new_tio) i = Z.testbit (c_lflag old_tio) i) /\
  0 <= c_lflag new_tio < 4294967296.
Proof.
  intros Hl new_tio. subst new_tio. unfold new_term_attribs.
  cbn [c_iflag c_oflag c_cflag c_cc c_lflag].
  assert (Hrange : 0 <= Z.land (c_lflag old_tio)
                          (to_uint32 NEW_TERM_ATTRIBS_MASK) < 4294967296).
  { rewrite raw_mask_value. split; [apply Z.land_nonneg; lia|].
    destruct (Z.eq_dec (Z.land (c_lflag old_tio) 4294967284) 0) as [->|Hnz];
      [lia|].
    assert (H0 : 0 <= Z.land (c_lflag old_tio) 4294967284)
      by (apply Z.land_nonneg; lia).
    change 4294967296 with (2 ^ 32).
    apply Z.log2_lt_pow2; [lia|].
    pose proof (Z.log2_land (c_lflag old_tio) 4294967284) as Hlog.
    assert (Z.log2 4294967284 = 31) by reflexivity.
    lia. }
  revert Hrange. rewrite (raw_lflag_ldiff _ Hl). intros Hrange.
  assert (Hbit : forall f, Z.land cooked_bits f = f ->
                   Z.land (Z.ldiff (c_lflag old_tio) cooked_bits) f = 0).
  { intros f Hf. apply Z.bits_inj'. intros i Hi.
    rewrite Z.land_spec, Z.ldiff_spec, Z.bits_0, <- Hf, Z.land_spec.
    destruct (Z.testbit (c_lflag old_tio) i), (Z.testbit cooked_bits i),
      (Z.testbit f i); reflexivity. }
  repeat split; try (apply Hbit; reflexivity); try apply Hrange.
  intros i Hi Hc. rewrite Z.ldiff_spec, Hc. apply andb_true_r.
Qed.

Lemma raw_mode_clears_three_flags_witness :
  0 <= c_lflag cooked_tty < 4294967296 /\
  c_lflag (new_term_attribs cooked_tty) = 35376 /\
  Z.land (c_lflag (new_term_attribs cooked_tty)) ECHO = 0.
Proof.
  assert (H : 0 <= c_lflag cooked_tty < 4294967296) by (cbn; lia).
  split; [exact H|]. split; [reflexivity|].
  apply (raw_mode_clears_three_flags cooked_tty H).
Defined.

(** ** The digits behind the array *)

Lemma firstn_update_snoc (buf : list ascii) (k : nat) (c : ascii) :
  (k < length buf)%nat ->
  firstn (S k) (update buf k c) = firstn k buf ++ [c].
Proof.
  revert k. induction buf as [|h t IH]; intros k Hk; cbn in Hk; [lia|].
  destruct k as [|k]; [reflexivity|].
  cbn [update]. change (firstn (S (S k)) (h :: update t k c))
    with (h :: firstn (S k) (update t k c)).
  rewrite IH by lia. reflexivity.
Qed.

Lemma firstn_update_below (buf : list ascii) (k : nat) (c : ascii) :
  firstn k (update buf k c) = firstn k buf.
Proof.
  revert k. induction buf as [|h t IH]; intros [|k]; try reflexivity.
  cbn [update firstn]. now rewrite IH.
Qed.

Lemma all_digits_snoc (ds : list ascii) (c : ascii) :
  all_digits ds -> isdigit c = true -> all_digits (ds ++ [c]).
Proof.
  intros Hds Hc. apply Forall_app. split; [assumption|].
  constructor; [assumption | constructor].
Qed.

Lemma all_digits_removelast (ds : list ascii) :
  all_digits ds -> all_digits (removelast ds).
Proof.
  induction 1 as [|d ds Hd Hds IH]; [constructor|].
  destruct ds as [|d' ds']; [constructor|].
  change (removelast (d :: d' :: ds')) with (d :: removelast (d' :: ds')).
  constructor; assumption.
Qed.

Lemma upto_nul_digits (ds : list ascii) : all_digits ds -> upto_nul ds = ds.
Proof.
  induction 1 as [|d ds Hd _ IH]; [reflexivity|].
  cbn [upto_nul]. destruct (digit_not_special d Hd) as [-> _]. now rewrite IH.
Qed.

Lemma contents_length (st : locals) :
  editing st -> Z.of_nat (length (contents st)) = n_input_chars st.
Proof.
  intros (_ & Hlen & Hn). unfold INPUT_BUFFER_MAX_LEN in *.
  unfold contents. rewrite length_firstn. lia.
Qed.

(** One key, seen on the digits: an iteration that runs to its end has
    done to the contents what [type_key] says. *)
Lemma iteration_typed x y c st w st' w' :
  editing st -> all_digits (contents st) ->
  iteration x y c st w = Next st' w' ->
  contents st' = type_key (contents st) c /\ all_digits (contents st') /\
  exists w1, w' = redraw x y st' w1.
Proof.
  intros Hst Hds. pose proof (contents_length st Hst) as Hcl.
  destruct Hst as (Hr & Hlen & Hn). unfold INPUT_BUFFER_MAX_LEN in *.
  unfold iteration, on_return, edit_buffer, type_key.
  rewrite Hcl. unfold INPUT_BUFFER_MAX_LEN.
  destruct (c =? ESCAPE)%char; [discriminate|].
  destruct (Ascii.eqb_spec c RETURN) as [->|_].
  - destruct (n_input_chars st =? 0); [|discriminate].
    cbn. intros H. injection H as <- <-.
    split; [reflexivity|]. split; [assumption|]. eexists. reflexivity.
  - destruct (isdigit c) eqn:Hd; cbn [negb].
    + destruct (Z.ltb_spec (n_input_chars st) 11) as [Hlt|Hge].
      * rewrite store_in_bounds by lia.
        rewrite wrap32_small by (unfold INT32_MIN, INT32_MAX; lia).
        intros H. injection H as <- <-.
        assert (Hc : contents
                       (mk_locals (ret_val st)
                          (update (input_buffer st)
                             (Z.to_nat (n_input_chars st)) c)
                          (n_input_chars st + 1))
                     = contents st ++ [c]).
        { unfold contents. cbn [n_input_chars input_buffer].
          replace (Z.to_nat (n_input_chars st + 1))
            with (S (Z.to_nat (n_input_chars st))) by lia.
          apply firstn_update_snoc. lia. }
        rewrite Hc. split; [reflexivity|].
        split; [apply all_digits_snoc; assumption|].
        eexists. reflexivity.
      * intros H. injection H as <- <-.
        split; [reflexivity|]. split; [assumption|]. eexists. reflexivity.
    + destruct ("d" =? c)%char.
      * destruct (Z.eqb_spec (n_input_chars st) 0) as [H0|H0]; cbn [negb].
        -- intros H. injection H as <- <-.
           split; [|split; [assumption | eexists; reflexivity]].
           unfold contents. rewrite H0. reflexivity.
        -- rewrite wrap32_small by (unfold INT32_MIN, INT32_MAX; lia).
           intros H. injection H as <- <-.
           assert (Hc : contents
                          (set_n_input_chars (n_input_chars st - 1) st)
                        = removelast (contents st)).
           { unfold contents, set_n_input_chars.
             cbn [n_input_chars input_buffer].
             replace (Z.to_nat (n_input_chars st))
               with (S (Z.to_nat (n_input_chars st - 1))) by lia.
             apply firstn_pred_removelast. lia. }
           rewrite Hc. split; [reflexivity|].
           split; [apply all_digits_removelast; assumption|].
           eexists. reflexivity.
      * intros H. injection H as <- <-.
        split; [reflexivity|]. split; [assumption|]. eexists. reflexivity.
Qed.

Lemma iteration_next_editing x y c st w st' w' :
  editing st -> iteration x y c st w = Next st' w' -> editing st'.
Proof.
  intros Hst H. pose proof (iteration_editing x y c st w Hst) as Hi.
  rewrite H in Hi. exact Hi.
Qed.

(** The waiting loop, seen on the digits. *)
Lemma loop_blocked_typed x y old_tio cs st w st' w' :
  editing st -> all_digits (contents st) ->
  loop x y old_tio cs st w = Blocked st' w' ->
  editing st' /\ all_digits (contents st') /\
  contents st' = typed_from (contents st) cs /\
  (cs <> [] -> exists w1, w' = redraw x y st' w1).
Proof.
  revert st w. induction cs as [|c cs IH]; intros st w Hst Hds H.
  - cbn in H. injection H as -> ->.
    split; [assumption|]. split; [assumption|]. split; [reflexivity|].
    intros Hne. congruence.
  - cbn [loop] in H.
    destruct (iteration x y c st w) as [st1 w1|st1 w1|f w1] eqn:Hit.
    + destruct (iteration_typed _ _ _ _ _ _ _ Hst Hds Hit)
        as (Hc & Hd1 & w2 & Hw2).
      pose proof (iteration_next_editing _ _ _ _ _ _ _ Hst Hit) as Hst1.
      destruct (IH st1 w1 Hst1 Hd1 H) as (He & Hd & Hty & Hred).
      split; [assumption|]. split; [assumption|]. split.
      * rewrite Hty, Hc. reflexivity.
      * intros _. destruct cs as [|c' cs'].
        -- cbn in H. injection H as <- <-. exists w2. exact Hw2.
        -- apply Hred. discriminate.
    + exfalso. unfold after_loop in H.
      destruct (negb (ret_val st1 =? 0)).
      * unfold confirmed_exit in H.
        destruct (store _ _ _); [discriminate|].
        destruct (c_string _); [|discriminate].
        destruct (atoi _); discriminate.
      * discriminate.
    + discriminate.
Qed.

Lemma initial_contents : contents initial_locals = [].
Proof. reflexivity. Qed.

Lemma dialog_blocked_typed x y prompt cs w st w' :
  show_int_input_dialog x y prompt cs w = Blocked st w' ->
  editing st /\ all_digits (contents st) /\ contents st = typed cs /\
  (cs <> [] -> exists w1, w' = redraw x y st w1).
Proof.
  unfold show_int_input_dialog. intros H.
  apply loop_blocked_typed in H;
    [exact H | apply initial_locals_editing | constructor].
Qed.

(** ** The confirmed exit in general *)

Lemma c_string_update (buf : list ascii) (k : nat) :
  (k < length buf)%nat -> all_digits (firstn k buf) ->
  c_string (update buf k NUL) = Some (firstn k buf).
Proof.
  revert k. induction buf as [|h t IH]; intros k Hk Hds; cbn in Hk; [lia|].
  destruct k as [|k]; [reflexivity|].
  cbn [firstn] in Hds. inversion Hds as [|? ? Hh Ht]; subst.
  cbn [update c_string firstn].
  destruct (digit_not_special h Hh) as [-> _].
  rewrite IH by (assumption || lia). reflexivity.
Qed.

Lemma atoi_digits_cases (ds : list ascii) :
  all_digits ds ->
  atoi ds = if decimal_value ds <=? INT32_MAX then inr (decimal_value ds)
            else inl (NotRepresentable (decimal_value ds)).
Proof.
  intros H. unfold atoi. rewrite strtol10_digits by assumption.
  pose proof (decimal_value_nonneg ds H) as H0.
  replace (INT32_MIN <=? decimal_value ds) with true
    by (symmetry; apply Z.leb_le; unfold INT32_MIN; lia).
  reflexivity.
Qed.

(** What the confirmed exit comes to, from any state the loop can be in. *)
Lemma confirmed_exit_cases unread st w :
  editing st -> all_digits (contents st) ->
  confirmed_exit unread st w
  = if n_input_chars st <? INPUT_BUFFER_MAX_LEN then
      if decimal_value (contents st) <=? INT32_MAX
      then Returned 1 (decimal_value (contents st)) unread (printf [RETURN] w)
      else Undefined (NotRepresentable (decimal_value (contents st))) w
    else Undefined (OutOfBounds INPUT_BUFFER_MAX_LEN INPUT_BUFFER_MAX_LEN) w.
Proof.
  intros (Hr & Hlen & Hn) Hds. unfold confirmed_exit, INPUT_BUFFER_MAX_LEN in *.
  destruct (Z.ltb_spec (n_input_chars st) 11) as [Hlt|Hge].
  - rewrite store_in_bounds by lia.
    unfold contents in *. rewrite c_string_update by (assumption || lia).
    rewrite atoi_digits_cases by assumption. rewrite Hr.
    destruct (_ <=? INT32_MAX); reflexivity.
  - rewrite store_out_of_bounds by lia.
    replace (n_input_chars st) with 11 by lia.
    rewrite Hlen. reflexivity.
Qed.

(** Every way out of the loop, told on the keys: the keys before the
    closing one, the closing key, and what is left unread. *)
Lemma loop_exit_cases x y old_tio cs st w :
  editing st -> all_digits (contents st) ->
  match loop x y old_tio cs st w with
  | Blocked _ _ => True
  | Returned r v unread w' =>
      exists keys,
        ~ In ESCAPE keys /\
        (r = 0 /\ v = 0 /\ cs = keys ++ ESCAPE :: unread \/
         r = 1 /\ cs = keys ++ RETURN :: unread /\
         typed_from (contents st) keys <> [] /\
         (length (typed_from (contents st) keys) <= 10)%nat /\
         v = decimal_value (typed_from (contents st) keys) /\
         0 <= v <= INT32_MAX)
  | Undefined f w' =>
      tty w' = old_tio /\
      exists keys unread,
        cs = keys ++ RETURN :: unread /\
        (f = OutOfBounds INPUT_BUFFER_MAX_LEN INPUT_BUFFER_MAX_LEN /\
         length (typed_from (contents st) keys) = 11%nat \/
         f = NotRepresentable (decimal_value (typed_from (contents st) keys)) /\
         INT32_MAX < decimal_value (typed_from (contents st) keys))
  end.
Proof.
  revert st w. induction cs as [|c cs IH]; intros st w Hst Hds; [exact I|].
  cbn [loop].
  pose proof (iteration_editing x y c st w Hst) as Hed.
  destruct (iteration x y c st w) as [st1 w1|st1 w1|f w1] eqn:Hit.
  - destruct (iteration_typed _ _ _ _ _ _ _ Hst Hds Hit) as (Hc & Hd1 & _).
    assert (Hne : c <> ESCAPE).
    { intros ->. unfold iteration in Hit. cbn in Hit. discriminate. }
    specialize (IH st1 w1 Hed Hd1). rewrite Hc in IH.
    destruct (loop x y old_tio cs st1 w1) as [r v unread w'|st' w'|f w'];
      [| exact I |].
    + destruct IH as (keys & Hesc & Hcases). exists (c :: keys). split.
      * intros [E|E]; [congruence | contradiction].
      * destruct Hcases as [(-> & -> & ->)|(-> & -> & Hrest)];
          [left | right]; repeat split; try reflexivity; apply Hrest.
    + destruct IH as (Htty & keys & unread & -> & Hcases).
      split; [exact Htty|]. exists (c :: keys), unread.
      split; [reflexivity | exact Hcases].
  - destruct Hed as (Hw & Hbuf & Hcnt & [(Hr0 & Hc)|(Hs & Hc & Hn0)]);
      subst w1 c.
    + unfold after_loop. rewrite Hr0. cbn [Z.eqb negb].
      unfold cancelled_exit. rewrite Hr0.
      exists []. split; [intros []|]. left. repeat split.
    + subst st1. unfold after_loop.
      pose proof (contents_length st Hst) as Hcl.
      rewrite (confirmed_exit_cases cs st _ Hst Hds).
      destruct Hst as (Hr & Hlen & Hn).
      rewrite Hr. cbn [Z.eqb negb].
      unfold INPUT_BUFFER_MAX_LEN in *.
      destruct (Z.ltb_spec (n_input_chars st) 11) as [Hlt|Hge].
      * destruct (Z.leb_spec (decimal_value (contents st)) INT32_MAX)
          as [Hle|Hgt].
        -- exists []. split; [intros []|]. right. cbn [typed_from fold_left].
           pose proof (decimal_value_nonneg _ Hds).
           repeat split; try assumption; try lia.
           intros E. rewrite E in Hcl. cbn in Hcl. lia.
        -- split; [reflexivity|]. exists [], cs.
           split; [reflexivity|]. right. split; [reflexivity | exact Hgt].
      * split; [reflexivity|]. exists [], cs.
        split; [reflexivity|]. left. split; [reflexivity|].
        cbn [typed_from fold_left]. lia.
  - contradiction.
Qed.

Lemma loop_without_closing_key x y old_tio cs st w :
  editing st -> ~ In ESCAPE cs -> ~ In RETURN cs ->
  exists st' w', loop x y old_tio cs st w = Blocked st' w'.
Proof.
  revert st w. induction cs as [|c cs IH]; intros st w Hst Hesc Hret.
  - do 2 eexists. reflexivity.
  - cbn [loop]. pose proof (iteration_editing x y c st w Hst) as Hed.
    destruct (iteration x y c st w) as [st1 w1|st1 w1|f w1].
    + apply IH; [assumption| |]; intros Hin; [apply Hesc | apply Hret];
        right; exact Hin.
    + exfalso.
      destruct Hed as (_ & _ & _ & [(_ & ->)|(_ & -> & _)]);
        [apply Hesc | apply Hret]; left; reflexivity.
    + contradiction.
Qed.

(** ** The dialog while it waits *)

(** X2.  Whenever the dialog waits for a key, whatever was typed before,
    the terminal is in the raw mode installed at entry: its attributes are
    the ones found at entry with ICANON, ECHO and ISIG masked out, set by
    the one [tcsetattr] call done so far. *)
Theorem raw_mode_while_waiting x y prompt keys w st w' :
  show_int_input_dialog x y prompt keys w = Blocked st w' ->
  tty w' = new_term_attribs (tty w) /\
  tcsetattr_calls (trace w')
  = new_term_attribs (tty w) :: tcsetattr_calls (trace w).
Proof.
  unfold show_int_input_dialog. intros H.
  apply loop_blocked_editing in H; [|apply initial_locals_editing].
  destruct H as (_ & Htty & Hcalls). split; assumption.
Qed.

Lemma raw_mode_while_waiting_witness :
  exists st w',
    main_dialog (chars "4x2") fresh_world = Blocked st w' /\
    tty w' = new_term_attribs cooked_tty /\
    tcsetattr_calls (trace w') = [new_term_attribs cooked_tty].
Proof.
  do 2 eexists. split; [reflexivity|].
  apply (raw_mode_while_waiting 1 1 main_prompt (chars "4x2") fresh_world
           _ _ eq_refl).
Defined.

(** X3.  Whenever the dialog waits for a key, [ret_val] is still 1, the
    count is between 0 and the size of the array, and the cells it counts
    hold decimal digits only: no other character ever enters the
    buffer. *)
Theorem buffer_holds_digits_only x y prompt keys w st w' :
  show_int_input_dialog x y prompt keys w = Blocked st w' ->
  ret_val st = 1 /\
  Z.of_nat (length (input_buffer st)) = INPUT_BUFFER_MAX_LEN /\
  0 <= n_input_chars st <= INPUT_BUFFER_MAX_LEN /\
  Z.of_nat (length (contents st)) = n_input_chars st /\
  all_digits (contents st).
Proof.
  intros H. apply dialog_blocked_typed in H.
  destruct H as (Hst & Hds & _). pose proof (contents_length st Hst) as Hcl.
  destruct Hst as (Hr & Hlen & Hn). rewrite Hlen.
  repeat split; assumption || apply Hn.
Qed.

Lemma buffer_holds_digits_only_witness :
  exists st w',
    main_dialog (chars "1a2-3d") fresh_world = Blocked st w' /\
    contents st = chars "12" /\
    all_digits (contents st).
Proof.
  do 2 eexists. split; [reflexivity|]. split; [reflexivity|].
  apply (buffer_holds_digits_only 1 1 main_prompt (chars "1a2-3d")
           fresh_world _ _ eq_refl).
Defined.

(** X4.  The array and its counter implement a sequence of digits edited
    at its end: whenever the dialog waits for a key, the digits it holds
    are the ones obtained from the keys typed so far by adding each digit
    at the end (while fewer than [INPUT_BUFFER_MAX_LEN] are held), taking
    the last one off at each 'd', and ignoring every other key.  What a
    deleted digit left behind in the array never shows again. *)
Theorem contents_follow_the_keys x y prompt keys w st w' :
  show_int_input_dialog x y prompt keys w = Blocked st w' ->
  contents st = typed keys.
Proof.
  intros H. apply dialog_blocked_typed in H. apply H.
Qed.

Lemma contents_follow_the_keys_witness :
  exists st w',
    main_dialog (chars "12dd9x") fresh_world = Blocked st w' /\
    input_buffer st = chars "92" ++ repeat NUL 9 /\
    contents st = typed (chars "12dd9x") /\
    typed (chars "12dd9x") = chars "9".
Proof.
  do 2 eexists. split; [reflexivity|]. split; [reflexivity|].
  split; [|reflexivity].
  apply (contents_follow_the_keys 1 1 main_prompt (chars "12dd9x")
           fresh_world _ _ eq_refl).
Defined.

(** X5.  After every key that does not close the dialog the bottom line
    is drawn anew, and what is written last is exactly the digits held:
    the cursor goes to the start of the line, the line is cleared, the
    prefix is written, the cursor goes behind the prefix and the current
    digits follow.  So a rejected key is never echoed, and a deleted digit
    is gone from the screen. *)
Theorem bottom_line_shows_contents x y prompt keys w st w' :
  show_int_input_dialog x y prompt keys w = Blocked st w' ->
  keys <> [] ->
  exists earlier,
    trace w'
    = EvPrint (contents st)
      :: EvGotoXY (wrap32 (x + prefix_len)) (wrap32 (y + 1))
      :: EvPrint INPUT_PREFIX
      :: EvClearLine
      :: EvGotoXY x (wrap32 (y + 1))
      :: earlier.
Proof.
  intros H Hne. apply dialog_blocked_typed in H.
  destruct H as (Hst & Hds & _ & Hred).
  destruct (Hred Hne) as (w1 & ->).
  exists (trace w1). unfold redraw. cbn. do 2 f_equal.
  destruct Hst as (_ & _ & Hn).
  unfold printf_prec_s.
  replace (n_input_chars st <? 0) with false
    by (symmetry; apply Z.ltb_ge; lia).
  apply upto_nul_digits. exact Hds.
Qed.

Lemma bottom_line_shows_contents_witness :
  exists st w' earlier,
    main_dialog (chars "12dx") fresh_world = Blocked st w' /\
    chars "12dx" <> [] /\
    trace w'
    = EvPrint (chars "1") :: EvGotoXY 3 2 :: EvPrint INPUT_PREFIX
      :: EvClearLine :: EvGotoXY 1 2 :: earlier.
Proof.
  assert (Hne : chars "12dx" <> []) by discriminate.
  destruct (bottom_line_shows_contents 1 1 main_prompt (chars "12dx")
              fresh_world _ _ eq_refl Hne) as (earlier & Htr).
  do 2 eexists. exists earlier.
  split; [reflexivity|]. split; [exact Hne | exact Htr].
Defined.

(** X6.  Only ESCAPE and RETURN end the dialog: on an input in which
    neither occurs the function neither returns nor leaves defined
    behaviour, it has consumed every key and waits for the next. *)
Theorem only_escape_or_return_closes x y prompt keys w :
  ~ In ESCAPE keys -> ~ In RETURN keys ->
  exists st w', show_int_input_dialog x y prompt keys w = Blocked st w'.
Proof.
  intros Hesc Hret. unfold show_int_input_dialog.
  apply loop_without_closing_key;
    [apply initial_locals_editing | assumption | assumption].
Qed.

Lemma only_escape_or_return_closes_witness :
  ~ In ESCAPE (chars "q12345678901234d") /\
  ~ In RETURN (chars "q12345678901234d") /\
  exists st w',
    main_dialog (chars "q12345678901234d") fresh_world = Blocked st w'.
Proof.
  assert (H1 : ~ In ESCAPE (chars "q12345678901234d")).
  { cbn. intros H.
    repeat (destruct H as [H|H]; [discriminate H|]). exact H. }
  assert (H2 : ~ In RETURN (chars "q12345678901234d")).
  { cbn. intros H.
    repeat (destruct H as [H|H]; [discriminate H|]). exact H. }
  split; [exact H1|]. split; [exact H2|].
  apply (only_escape_or_return_closes 1 1 main_prompt
           (chars "q12345678901234d") fresh_world H1 H2).
Defined.

(** ** Closing the dialog *)

(** RETURN on a waiting dialog that holds digits. *)
Lemma dialog_return_cases x y prompt keys unread w st w' :
  show_int_input_dialog x y prompt keys w = Blocked st w' ->
  typed keys <> [] ->
  show_int_input_dialog x y prompt (keys ++ RETURN :: unread) w
  = let w'' := tcsetattr (tty w) w' in
    let v := decimal_value (typed keys) in
    if Z.of_nat (length (typed keys)) <? INPUT_BUFFER_MAX_LEN then
      if v <=? INT32_MAX
      then Returned 1 v unread (printf [RETURN] w'')
      else Undefined (NotRepresentable v) w''
    else Undefined (OutOfBounds INPUT_BUFFER_MAX_LEN INPUT_BUFFER_MAX_LEN) w''.
Proof.
  intros H Hne.
  destruct (dialog_blocked_typed _ _ _ _ _ _ _ H) as (Hst & Hds & Hty & _).
  pose proof (contents_length st Hst) as Hcl.
  unfold show_int_input_dialog in *.
  rewrite (loop_app _ _ _ _ _ _ _ _ _ H).
  cbn [loop]. unfold iteration, on_return.
  cbn [Ascii.eqb Bool.eqb RETURN ESCAPE].
  replace (n_input_chars st =? 0) with false.
  2:{ symmetry. apply Z.eqb_neq. rewrite <- Hcl, Hty.
      destruct (typed keys); [congruence | cbn; lia]. }
  unfold after_loop. rewrite (confirmed_exit_cases _ _ _ Hst Hds).
  destruct Hst as (Hr & _). rewrite Hr. cbn [Z.eqb negb].
  rewrite <- Hty, Hcl. reflexivity.
Qed.

(** X7.  What RETURN does to a waiting dialog that holds digits, whatever
    keys led there.  With at most ten digits whose decimal value fits an
    [int32_t], the function returns 1 and hands back that value, the keys
    after RETURN left unread.  With ten digits of a larger value the
    conversion by [atoi] is undefined.  With eleven digits the terminator
    is written outside the array. *)
Theorem return_confirms_typed_digits x y prompt keys unread w st w' :
  show_int_input_dialog x y prompt keys w = Blocked st w' ->
  typed keys <> [] ->
  show_int_input_dialog x y prompt (keys ++ RETURN :: unread) w
  = let w'' := tcsetattr (tty w) w' in
    let v := decimal_value (typed keys) in
    if Z.of_nat (length (typed keys)) <? INPUT_BUFFER_MAX_LEN then
      if v <=? INT32_MAX
      then Returned 1 v unread (printf [RETURN] w'')
      else Undefined (NotRepresentable v) w''
    else Undefined (OutOfBounds INPUT_BUFFER_MAX_LEN INPUT_BUFFER_MAX_LEN) w''.
Proof. apply dialog_return_cases. Qed.

Lemma return_confirms_typed_digits_witness :
  exists st w',
    main_dialog (chars "0d4x2") fresh_world = Blocked st w' /\
    typed (chars "0d4x2") <> [] /\
    main_dialog (chars "0d4x2" ++ RETURN :: chars "rest") fresh_world
    = Returned 1 42 (chars "rest")
               (printf [RETURN] (tcsetattr cooked_tty w')).
Proof.
  assert (Hne : typed (chars "0d4x2") <> []) by discriminate.
  do 2 eexists. split; [reflexivity|]. split; [exact Hne|].
  apply (return_confirms_typed_digits 1 1 main_prompt (chars "0d4x2")
           (chars "rest") fresh_world _ _ eq_refl Hne).
Defined.

(** X8.  Safety of the buffer and of its conversion.  Of the accesses to
    [input_buffer] and the call of [atoi], only two can go wrong, both at
    the confirmed exit after RETURN: the write of the terminator, outside
    the array only when eleven digits are held, and [atoi], unable to
    represent its result only when the value of the digits held exceeds
    [INT32_MAX].  Every write inside the loop stays inside the array, the
    string handed to [atoi] is always terminated within it, and at either
    fault the saved terminal attributes are already back.  The statement
    is about these faults only: what ISO C leaves undefined elsewhere
    ([isdigit] on a negative [char], overflow in the arithmetic on the
    coordinates) is not tracked by [fault] and not spoken of here. *)
Theorem buffer_faults_only_at_confirmed_exit x y prompt stdin w f w' :
  show_int_input_dialog x y prompt stdin w = Undefined f w' ->
  tty w' = tty w /\
  exists keys unread,
    stdin = keys ++ RETURN :: unread /\
    (f = OutOfBounds INPUT_BUFFER_MAX_LEN INPUT_BUFFER_MAX_LEN /\
     length (typed keys) = 11%nat \/
     f = NotRepresentable (decimal_value (typed keys)) /\
     INT32_MAX < decimal_value (typed keys)).
Proof.
  unfold show_int_input_dialog. intros H.
  match type of H with
  | loop ?a ?b ?o ?cs ?s ?v = _ =>
      pose proof (loop_exit_cases a b o cs s v initial_locals_editing
                    (Forall_nil _)) as Hc
  end.
  rewrite H in Hc. exact Hc.
Qed.

Lemma buffer_faults_only_at_confirmed_exit_witness :
  exists w' keys unread,
    main_dialog (chars "4294967296" ++ [RETURN]) fresh_world
    = Undefined (NotRepresentable 4294967296) w' /\
    tty w' = cooked_tty /\
    chars "4294967296" ++ [RETURN] = keys ++ RETURN :: unread /\
    (NotRepresentable 4294967296
     = OutOfBounds INPUT_BUFFER_MAX_LEN INPUT_BUFFER_MAX_LEN /\
     length (typed keys) = 11%nat \/
     NotRepresentable 4294967296
     = NotRepresentable (decimal_value (typed keys)) /\
     INT32_MAX < decimal_value (typed keys)).
Proof.
  assert (Hrun : exists w',
             main_dialog (chars "4294967296" ++ [RETURN]) fresh_world
             = Undefined (NotRepresentable 4294967296) w')
    by (vm_compute; eexists; reflexivity).
  destruct Hrun as (w' & Hrun).
  destruct (buffer_faults_only_at_confirmed_exit 1 1 main_prompt
              (chars "4294967296" ++ [RETURN]) fresh_world _ _ Hrun)
    as (Htty & keys & unread & Hsplit & Hcases).
  exists w', keys, unread.
  split; [exact Hrun|]. split; [exact Htty|].
  split; [exact Hsplit | exact Hcases].
Defined.

(** X9.  What a return of the function tells its caller, on the runs that
    stay within defined behaviour: a [Returned] outcome, which excludes the
    runs where the terminator is written outside the array (eleven digits
    held at RETURN) and those where [atoi] cannot represent the value (more
    than [INT32_MAX]); what a compiled program hands back on such runs is
    not covered.  Within these runs the result is 0 or 1.  It is 0 exactly
    when ESCAPE closed the dialog, and then the value handed back is 0.
    It is 1 exactly when RETURN closed it, and then the value handed back
    is the decimal value of the digits the keys before that RETURN amount
    to: at least one digit and at most ten, the value between 0 and
    [INT32_MAX].  In both cases no ESCAPE came before the closing key, and
    the keys after it are left unread. *)
Theorem return_value_meaning x y prompt stdin w r v unread w' :
  show_int_input_dialog x y prompt stdin w = Returned r v unread w' ->
  exists keys,
    ~ In ESCAPE keys /\
    (r = 0 /\ v = 0 /\ stdin = keys ++ ESCAPE :: unread \/
     r = 1 /\ stdin = keys ++ RETURN :: unread /\
     typed keys <> [] /\
     (length (typed keys) <= 10)%nat /\
     v = decimal_value (typed keys) /\
     0 <= v <= INT32_MAX).
Proof.
  unfold show_int_input_dialog. intros H.
  match type of H with
  | loop ?a ?b ?o ?cs ?s ?u = _ =>
      pose proof (loop_exit_cases a b o cs s u initial_locals_editing
                    (Forall_nil _)) as Hc
  end.
  rewrite H in Hc. exact Hc.
Qed.

Lemma return_value_meaning_witness :
  exists w' keys,
    main_dialog (chars "7d" ++ RETURN :: chars "15" ++ RETURN :: chars "zz")
                fresh_world
    = Returned 1 15 (chars "zz") w' /\
    ~ In ESCAPE keys /\
    ((1 = 0 /\ 15 = 0 /\
      chars "7d" ++ RETURN :: chars "15" ++ RETURN :: chars "zz"
      = keys ++ ESCAPE :: chars "zz") \/
     (1 = 1 /\
      chars "7d" ++ RETURN :: chars "15" ++ RETURN :: chars "zz"
      = keys ++ RETURN :: chars "zz" /\
      typed keys <> [] /\
      (length (typed keys) <= 10)%nat /\
      15 = decimal_value (typed keys) /\
      0 <= 15 <= INT32_MAX)).
Proof.
  destruct (return_value_meaning 1 1 main_prompt
              (chars "7d" ++ RETURN :: chars "15" ++ RETURN :: chars "zz")
              fresh_world _ _ _ _ eq_refl)
    as (keys & Hesc & Hcases).
  eexists. exists keys.
  split; [reflexivity|]. split; [exact Hesc | exact Hcases].
Defined.

(** X10.  'd' undoes a digit: from any state of the loop whose array has
    room, a digit followed by 'd' brings back the count and the digits
    held before, without any alert. *)
Theorem delete_undoes_append x y c (st : locals) (w : world) :
  editing st -> isdigit c = true ->
  n_input_chars st < INPUT_BUFFER_MAX_LEN ->
  exists st1 w1 st2 w2,
    iteration x y c st w = Next st1 w1 /\
    contents st1 = contents st ++ [c] /\
    iteration x y "d" st1 w1 = Next st2 w2 /\
    n_input_chars st2 = n_input_chars st /\
    contents st2 = contents st /\
    alerts (trace w2) = alerts (trace w).
Proof.
  intros (Hr & Hlen & Hn) Hd Hlt. unfold INPUT_BUFFER_MAX_LEN in *.
  destruct (digit_not_special c Hd) as (_ & Hesc & Hret & _).
  unfold iteration at 1. unfold on_return, edit_buffer.
  rewrite Hesc, Hret, Hd. cbn [negb].
  replace (n_input_chars st <? INPUT_BUFFER_MAX_LEN) with true
    by (symmetry; apply Z.ltb_lt; unfold INPUT_BUFFER_MAX_LEN; lia).
  rewrite store_in_bounds by lia.
  rewrite wrap32_small by (unfold INT32_MIN, INT32_MAX; lia).
  do 4 eexists. split; [reflexivity|].
  split.
  { unfold contents. cbn [n_input_chars input_buffer].
    replace (Z.to_nat (n_input_chars st + 1))
      with (S (Z.to_nat (n_input_chars st))) by lia.
    apply firstn_update_snoc. lia. }
  unfold iteration, on_return, edit_buffer.
  cbn [Ascii.eqb Bool.eqb RETURN ESCAPE n_input_chars].
  replace (isdigit "d") with false by reflexivity. cbn [negb].
  replace (n_input_chars st + 1 =? 0) with false
    by (symmetry; apply Z.eqb_neq; lia).
  cbn [negb].
  rewrite wrap32_small by (unfold INT32_MIN, INT32_MAX; lia).
  split; [reflexivity|].
  unfold contents, set_n_input_chars. cbn [n_input_chars input_buffer].
  replace (n_input_chars st + 1 - 1) with (n_input_chars st) by lia.
  split; [reflexivity|].
  split; [apply firstn_update_below | reflexivity].
Qed.

Lemma delete_undoes_append_witness :
  let st := mk_locals 1 (chars "12" ++ repeat NUL 9) 2 in
  editing st /\ isdigit "7" = true /\
  n_input_chars st < INPUT_BUFFER_MAX_LEN /\
  exists st1 w1 st2 w2,
    iteration 1 1 "7" st fresh_world = Next st1 w1 /\
    contents st1 = contents st ++ ["7"%char] /\
    iteration 1 1 "d" st1 w1 = Next st2 w2 /\
    n_input_chars st2 = n_input_chars st /\
    contents st2 = contents st /\
    alerts (trace w2) = alerts (trace fresh_world).
Proof.
  intros st.
  assert (H1 : editing st)
    by (unfold editing, INPUT_BUFFER_MAX_LEN; simpl; lia).
  assert (H2 : isdigit "7" = true) by reflexivity.
  assert (H3 : n_input_chars st < INPUT_BUFFER_MAX_LEN) by (simpl; reflexivity).
  split; [exact H1|]. split; [exact H2|]. split; [exact H3|].
  apply (delete_undoes_append 1 1 "7" st fresh_world H1 H2 H3).
Defined.

(** ** [main]: the number printed *)

Lemma digit_char_value (d : ascii) :
  isdigit d = true -> digit_char (digit_value d) = d.
Proof. char_cases d. Qed.

Lemma digit_value_zero (d : ascii) :
  isdigit d = true -> digit_value d = 0 -> d = "0"%char.
Proof. char_cases d; intros _ H; discriminate H. Qed.

Lemma decimal_value_snoc (ds : list ascii) (d : ascii) :
  decimal_value (ds ++ [d]) = 10 * decimal_value ds + digit_value d.
Proof.
  induction ds as [|h t IH].
  - cbn. lia.
  - cbn [app decimal_value]. rewrite IH, length_app. cbn [length].
    replace (Z.of_nat (length t + 1)) with (Z.succ (Z.of_nat (length t)))
      by lia.
    rewrite Z.pow_succ_r by lia. ring.
Qed.

Lemma zero_value_zero_digits (ds : list ascii) :
  all_digits ds -> decimal_value ds = 0 ->
  Forall (fun c => c = "0"%char) ds.
Proof.
  induction 1 as [|d ds Hd Hds IH]; intros Hv; [constructor|].
  cbn [decimal_value] in Hv.
  pose proof (digit_value_range d Hd) as Hr.
  pose proof (decimal_value_nonneg ds Hds) as Hn.
  assert (Hp : 0 < 10 ^ Z.of_nat (length ds))
    by (apply Z.pow_pos_nonneg; lia).
  assert (Hd0 : digit_value d = 0) by nia.
  constructor; [apply digit_value_zero; assumption|].
  apply IH. rewrite Hd0 in Hv. lia.
Qed.

Lemma strip_zeros_zeros_snoc (pre : list ascii) (d : ascii) :
  Forall (fun c => c = "0"%char) pre -> strip_zeros (pre ++ [d]) = [d].
Proof.
  induction 1 as [|h t Hh _ IH]; [reflexivity|].
  subst h. cbn [app strip_zeros].
  destruct (t ++ [d]) as [|a l] eqn:E.
  - destruct t; discriminate E.
  - cbn [Ascii.eqb Bool.eqb]. exact IH.
Qed.

Lemma strip_zeros_snoc (pre : list ascii) (d : ascii) :
  all_digits pre -> decimal_value pre <> 0 ->
  strip_zeros (pre ++ [d]) = strip_zeros pre ++ [d].
Proof.
  induction 1 as [|h t Hh Ht IH]; intros Hv; [cbn in Hv; lia|].
  destruct t as [|a l].
  - cbn. destruct (Ascii.eqb_spec h "0") as [->|]; [|reflexivity].
    cbn in Hv. lia.
  - change (strip_zeros ((h :: a :: l) ++ [d]))
      with (if (h =? "0")%char then strip_zeros ((a :: l) ++ [d])
            else h :: (a :: l) ++ [d]).
    change (strip_zeros (h :: a :: l))
      with (if (h =? "0")%char then strip_zeros (a :: l) else h :: a :: l).
    destruct (Ascii.eqb_spec h "0") as [->|]; [|reflexivity].
    apply IH. intros E. apply Hv.
    cbn [decimal_value] in *. rewrite E.
    change (digit_value "0") with 0. lia.
Qed.

Lemma decimal_digits_step (f : nat) (v dv : Z) (acc : list ascii) :
  0 <= dv <= 9 ->
  decimal_digits (S f) (10 * v + dv) acc
  = if v =? 0 then digit_char dv :: acc
    else decimal_digits f v (digit_char dv :: acc).
Proof.
  intros Hdv. cbn [decimal_digits].
  replace ((10 * v + dv) mod 10) with dv
    by (apply Z.mod_unique with v; lia).
  replace ((10 * v + dv) / 10) with v
    by (apply Z.div_unique with dv; lia).
  reflexivity.
Qed.

(** Printing the value of a numeral gives the numeral back, without its
    leading zeros. *)
Lemma decimal_digits_of_value (ds : list ascii) :
  all_digits ds -> ds <> [] ->
  forall (fuel : nat) (acc : list ascii),
    decimal_value ds < 10 ^ Z.of_nat fuel -> (0 < fuel)%nat ->
    decimal_digits fuel (decimal_value ds) acc = strip_zeros ds ++ acc.
Proof.
  induction ds as [|d pre IH] using rev_ind; intros Hds Hne; [congruence|].
  apply Forall_app in Hds. destruct Hds as [Hpre Hd].
  inversion Hd as [|? ? Hd' _]; subst.
  intros fuel acc Hlt Hfuel.
  destruct fuel as [|f]; [lia|].
  rewrite decimal_value_snoc in *.
  pose proof (digit_value_range d Hd') as Hr.
  pose proof (decimal_value_nonneg pre Hpre) as Hn.
  rewrite decimal_digits_step by assumption.
  rewrite digit_char_value by assumption.
  destruct (Z.eqb_spec (decimal_value pre) 0) as [H0|H0].
  - rewrite strip_zeros_zeros_snoc
      by (apply zero_value_zero_digits; assumption).
    reflexivity.
  - rewrite strip_zeros_snoc by assumption.
    rewrite <- app_assoc. cbn [app].
    rewrite Nat2Z.inj_succ, Z.pow_succ_r in Hlt by lia.
    apply IH; try assumption.
    + intros ->. cbn in H0. lia.
    + lia.
    + destruct f as [|f']; [|lia].
      change (10 ^ Z.of_nat 0) with 1 in Hlt. lia.
Qed.

Lemma printf_d_of_value (ds : list ascii) :
  all_digits ds -> ds <> [] -> decimal_value ds <= INT32_MAX ->
  printf_d (decimal_value ds) = strip_zeros ds.
Proof.
  intros Hds Hne Hmax. unfold printf_d.
  pose proof (decimal_value_nonneg ds Hds) as Hn.
  replace (decimal_value ds <? 0) with false
    by (symmetry; apply Z.ltb_ge; lia).
  rewrite decimal_digits_of_value; try assumption.
  - apply app_nil_r.
  - unfold INT32_MAX in Hmax. cbn. lia.
  - lia.
Qed.

(** X11.  [main] prints back what was typed.  If the dialog is waiting
    after some keys and holds between one and ten digits of a value up to
    [INT32_MAX], then on RETURN [main] restores the terminal, ends the
    bottom line, writes "Your number is " followed by those digits without
    their leading zeros and a newline, and exits with status 0. *)
Theorem main_prints_typed_number keys unread w w1 :
  main keys w = MainBlocked w1 ->
  typed keys <> [] ->
  (length (typed keys) <= 10)%nat ->
  decimal_value (typed keys) <= INT32_MAX ->
  main (keys ++ RETURN :: unread) w
  = Exited 0
      (printf (chars "Your number is " ++ strip_zeros (typed keys) ++ [RETURN])
         (printf [RETURN] (tcsetattr (tty w) w1))).
Proof.
  unfold main. intros H Hne Hlen Hmax.
  destruct (show_int_input_dialog 1 1 main_prompt keys (clear_screen w))
    as [r v u w0|st w0|f w0] eqn:E.
  - destruct (negb (r =? 0)); discriminate H.
  - injection H as ->.
    destruct (dialog_blocked_typed _ _ _ _ _ _ _ E) as (_ & Hds & Hty & _).
    rewrite (dialog_return_cases _ _ _ _ unread _ _ _ E Hne). cbv zeta.
    replace (Z.of_nat (length (typed keys)) <? INPUT_BUFFER_MAX_LEN) with true
      by (symmetry; apply Z.ltb_lt; unfold INPUT_BUFFER_MAX_LEN; lia).
    replace (decimal_value (typed keys) <=? INT32_MAX) with true
      by (symmetry; apply Z.leb_le; assumption).
    cbn [Z.eqb negb].
    rewrite printf_d_of_value; [reflexivity | | assumption | assumption].
    rewrite <- Hty. exact Hds.
  - discriminate H.
Qed.

Lemma main_prints_typed_number_witness :
  exists w1,
    main (chars "0d007x") fresh_world = MainBlocked w1 /\
    typed (chars "0d007x") <> [] /\
    (length (typed (chars "0d007x")) <= 10)%nat /\
    decimal_value (typed (chars "0d007x")) <= INT32_MAX /\
    main (chars "0d007x" ++ RETURN :: chars "q") fresh_world
    = Exited 0
        (printf (chars "Your number is 7" ++ [RETURN])
           (printf [RETURN] (tcsetattr cooked_tty w1))).
Proof.
  assert (H1 : typed (chars "0d007x") <> []) by discriminate.
  assert (H2 : (length (typed (chars "0d007x")) <= 10)%nat) by (cbn; lia).
  assert (H3 : decimal_value (typed (chars "0d007x")) <= INT32_MAX)
    by (vm_compute; discriminate).
  eexists. split; [reflexivity|].
  split; [exact H1|]. split; [exact H2|]. split; [exact H3|].
  apply (main_prints_typed_number (chars "0d007x") (chars "q") fresh_world
           _ eq_refl H1 H2 H3).
Defined.

(** X12.  ESCAPE typed while the dialog waits, after any keys, makes
    [main] restore the terminal, replace the bottom line by "Cancelled",
    and exit with status 0 without printing any number. *)
Theorem main_cancelled keys unread w w1 :
  main keys w = MainBlocked w1 ->
  main (keys ++ ESCAPE :: unread) w
  = Exited 0
      (printf [RETURN]
         (printf (chars "Cancelled" ++ [RETURN])
            (clear_line (goto_xy 3 2 (tcsetattr (tty w) w1))))).
Proof.
  unfold main. intros H.
  destruct (show_int_input_dialog 1 1 main_prompt keys (clear_screen w))
    as [r v u w0|st w0|f w0] eqn:E.
  - destruct (negb (r =? 0)); discriminate H.
  - injection H as ->. unfold show_int_input_dialog in *.
    rewrite (loop_app _ _ _ _ _ _ _ _ _ E). reflexivity.
  - discriminate H.
Qed.

Lemma main_cancelled_witness :
  exists w1,
    main (chars "12") fresh_world = MainBlocked w1 /\
    main (chars "12" ++ ESCAPE :: chars "3") fresh_world
    = Exited 0
        (printf [RETURN]
           (printf (chars "Cancelled" ++ [RETURN])
              (clear_line (goto_xy 3 2 (tcsetattr cooked_tty w1))))).
Proof.
  eexists. split; [reflexivity|].
  apply (main_cancelled (chars "12") (chars "3") fresh_world _ eq_refl).
Defined.

(** ** Alerts, key by key *)

(** X13.  The alert is an exact signal of rejection.  An iteration that
    runs to its end sounds no alert when its key was accepted (a digit
    stored, a digit deleted), exactly one when the key was rejected, and
    exactly two when the rejected key was RETURN. *)
Theorem alerts_count_rejections x y c (st : locals) (w : world) st' w' :
  iteration x y c st w = Next st' w' ->
  alerts (trace w')
  = (alerts (trace w)
     + (if rejected c st then if (c =? RETURN)%char then 2 else 1 else 0))%nat.
Proof.
  unfold iteration, on_return, edit_buffer, rejected, illegal_char,
    delete_on_empty, confirm_on_empty, digit_refused.
  destruct (Ascii.eqb_spec c ESCAPE) as [->|_]; [discriminate|].
  destruct (Ascii.eqb_spec c RETURN) as [->|_].
  - replace (isdigit RETURN) with false by reflexivity.
    replace ("d" =? RETURN)%char with false by reflexivity.
    cbn [negb andb orb].
    destruct (n_input_chars st =? 0); [|discriminate].
    intros H. injection H as <- <-. cbn. lia.
  - destruct (isdigit c) eqn:Hd.
    + destruct (digit_not_special c Hd) as (_ & _ & _ & -> & _).
      cbn [negb andb orb].
      destruct (n_input_chars st <? INPUT_BUFFER_MAX_LEN).
      * destruct (store _ _ _); [discriminate|].
        intros H. injection H as <- <-. cbn. lia.
      * intros H. injection H as <- <-. cbn. lia.
    + cbn [negb andb orb]. destruct ("d" =? c)%char; cbn [negb andb orb].
      * destruct (n_input_chars st =? 0); cbn [negb andb orb];
          intros H; injection H as <- <-; cbn; lia.
      * intros H. injection H as <- <-. cbn. lia.
Qed.

Lemma alerts_count_rejections_witness :
  let st := mk_locals 1 (chars "12" ++ repeat NUL 9) 2 in
  (exists st' w',
      iteration 1 1 "x" st fresh_world = Next st' w' /\
      alerts (trace w') = 1%nat) /\
  (exists st' w',
      iteration 1 1 "3" st fresh_world = Next st' w' /\
      alerts (trace w') = 0%nat).
Proof.
  intros st. split.
  - do 2 eexists. split; [reflexivity|].
    apply (alerts_count_rejections 1 1 "x" st fresh_world _ _ eq_refl).
  - do 2 eexists. split; [reflexivity|].
    apply (alerts_count_rejections 1 1 "3" st fresh_world _ _ eq_refl).
Defined.
